(** * Supplier notification pipeline

    A shallow embedding of the notification code of the supplier dashboard:

    - [NotificationService] (services/notificationService.ts): the store
      adapter over the Firestore collection [notifications] and the
      notification helpers for order, payment, status, system and product
      events;
    - [SupplierEmailService] (services/supplierEmailService.ts): the e-mail
      side channel;
    - the [filteredAndSortedNotifications] memo of the enhanced notification
      page.

    Conventions of the embedding.

    - A JavaScript string is represented by the bytes of its UTF-8 encoding
      ([string]).  Concatenation, equality and [includes] on well-formed
      strings agree with JavaScript's; [slice] counts bytes, which agrees
      with JavaScript's code units on ASCII text such as document ids.
    - String literals are copied byte for byte from the source files.
    - A timestamp written by [new Date().toISOString()] is represented by
      its epoch milliseconds ([Z]); [new Date(s).getTime()] recovers it.
    - Whatever the JavaScript engine supplies and the repository does not
      define (IEEE numbers and their formatting, Unicode case mapping,
      pattern replacement, collation) is a member of the class [Host].
    - The Firestore collection is a finite map from document ids to
      documents; reads and writes are modelled on an available store. *)

From Stdlib Require Import String Ascii ZArith List QArith Qabs Qround Lia Permutation Sorted.
From stdpp Require Import gmap strings list fin_maps pretty.

Local Open Scope string_scope.

(** ** Host environment *)

Class Host := {
  (** JavaScript [number] (IEEE-754 binary64). *)
  number : Type;
  (** The number holding an array length. *)
  num_of_nat : nat -> number;
  (** [Number.prototype.toFixed]. *)
  toFixed : number -> nat -> string;
  (** The text of a number in a template literal. *)
  numberToString : number -> string;
  (** [String.prototype.toLowerCase] and [toUpperCase]. *)
  toLowerCase : string -> string;
  toUpperCase : string -> string;
  (** [replaceGlobal pat repl s] is [s.replace(/pat/g, repl)] for a pattern
      that is a literal text. *)
  replaceGlobal : string -> string -> string -> string;
  (** [String.prototype.localeCompare]. *)
  localeCompare : string -> string -> Z;
  (** [Function.prototype.toString] of the built-in function of that name. *)
  functionToString : string -> string;
  (** [daysBefore t n] is the time of [d] after [d.setDate(d.getDate() - n)]
      for [d = new Date(t)], in the local time zone. *)
  daysBefore : Z -> Z -> Z
}.

(** Epoch milliseconds. *)
Definition Time := Z.

(** The successive readings of [new Date()] made by one operation. *)
Definition Clock := nat -> Time.

(** ** Strings *)

Module Js.

(** [hay.includes(needle)] *)
Fixpoint includes (hay needle : string) : bool :=
  String.prefix needle hay ||
  match hay with
  | EmptyString => false
  | String _ rest => includes rest needle
  end.

(** [s.slice(-n)] for [n > 0]: the last [n] units of [s], all of [s] when it
    is shorter. *)
Definition sliceLast (n : nat) (s : string) : string :=
  substring (String.length s - n) n s.

(** Truthiness of a string: only the empty string is falsy. *)
Definition truthy (s : string) : bool :=
  match s with EmptyString => false | _ => true end.

(** [a || b] on strings. *)
Definition orElse (a b : string) : string := if truthy a then a else b.

(** [xs.join(sep)] *)
Fixpoint join (sep : string) (xs : list string) : string :=
  match xs with
  | [] => ""
  | [x] => x
  | x :: rest => x ++ sep ++ join sep rest
  end.

(** Values of type [any], as far as the service builds them. *)
#[local] Unset Elimination Schemes.
Inductive Value (num : Type) : Type :=
| VUndefined
| VNum (n : num)
| VStr (s : string)
| VBool (b : bool)
| VArr (items : list (Value num))
| VObj (fields : list (string * Value num)).
#[local] Set Elimination Schemes.

Arguments VUndefined {num}.
Arguments VNum {num} n.
Arguments VStr {num} s.
Arguments VBool {num} b.
Arguments VArr {num} items.
Arguments VObj {num} fields.

(** Own properties of an object, as an association list with one entry per
    key, in insertion order. *)
Definition Props (num : Type) := list (string * Value num).

Fixpoint getProp {num} (k : string) (ps : Props num) : Value num :=
  match ps with
  | [] => VUndefined
  | (k', v) :: rest => if String.eqb k k' then v else getProp k rest
  end.



(** [v.k] for a value: a property read on an object without that own
    property, or on a primitive, is [undefined] here (no claim reads an
    inherited property of a payload). *)
Definition field {num} (k : string) (v : Value num) : Value num :=
  match v with
  | VObj fields => getProp k fields
  | _ => VUndefined
  end.

(** What a property read finds on an object literal: an own property, or a
    property inherited from [Object.prototype], or nothing. *)
Inductive Lookup (A : Type) : Type :=
| Own (a : A)
| InheritedFunction (name : string)
| InheritedPrototype
| Missing.

Arguments Own {A} a.
Arguments InheritedFunction {A} name.
Arguments InheritedPrototype {A}.
Arguments Missing {A}.

(** The properties of [Object.prototype]: [constructor] is the function
    [Object], [__proto__] is an accessor that answers the prototype of the
    receiver (for an object literal, [Object.prototype] itself), the others
    are functions named like their key. *)
Definition objectPrototype {A} (k : string) : Lookup A :=
  if String.eqb k "constructor" then InheritedFunction "Object"
  else if String.eqb k "__proto__" then InheritedPrototype
  else if existsb (String.eqb k)
            ["hasOwnProperty"; "isPrototypeOf"; "propertyIsEnumerable";
             "toLocaleString"; "toString"; "valueOf";
             "__defineGetter__"; "__defineSetter__";
             "__lookupGetter__"; "__lookupSetter__"]
       then InheritedFunction k
  else Missing.

(** [table[k]] for an object literal [table] whose own properties are
    [entries]. *)
Fixpoint ownProp {A} (entries : list (string * A)) (k : string) : option A :=
  match entries with
  | [] => None
  | (k', a) :: rest => if String.eqb k k' then Some a else ownProp rest k
  end.

Definition literalGet {A} (entries : list (string * A)) (k : string) : Lookup A :=
  match ownProp entries k with
  | Some a => Own a
  | None => objectPrototype k
  end.

End Js.

Import Js.

(** ** Sorting

    [Array.prototype.sort] and Firestore's [orderBy] are both modelled by a
    stable insertion sort driven by a boolean "may precede" test.  For a
    comparator that is a total preorder, every conforming sort returns this
    list. *)

Fixpoint insertBy {A} (le : A -> A -> bool) (x : A) (l : list A) : list A :=
  match l with
  | [] => [x]
  | y :: rest => if le x y then x :: y :: rest else y :: insertBy le x rest
  end.

Definition sortBy {A} (le : A -> A -> bool) (l : list A) : list A :=
  foldr (insertBy le) [] l.

(** [xs.sort(compare)] for a comparator with integer results. *)
Definition arraySort {A} (compare : A -> A -> Z) (xs : list A) : list A :=
  sortBy (fun a b => (compare a b <=? 0)%Z) xs.

(** ** models/index.ts *)

Module OrderItem.
Record t `{Host} := mk {
  productId : string;
  productName : string;
  productImage : string;
  quantity : number;
  unitPrice : number;
  totalPrice : number;
  unit_ : string
}.
End OrderItem.

Module DeliveryAddress.
Record t := mk {
  street : string;
  city : string;
  postalCode : string;
  country : string;
  instructions : option string
}.
End DeliveryAddress.

(** [status] and [paymentStatus] are declared as unions of literals; the
    services receive them as plain strings, and so does the model. *)
Module Order.
Record t `{Host} := mk {
  id : string;
  masterOrderId : string;
  fournisseurId : string;
  fournisseurName : string;
  userId : string;
  userEmail : string;
  userName : string;
  userPhone : string;
  subtotal : number;
  deliveryFee : number;
  tax : number;
  total : number;
  status : string;
  paymentStatus : string;
  paymentMethod : string;
  deliveryAddress : DeliveryAddress.t;
  orderNotes : string;
  createdAt : Time;
  updatedAt : Time;
  items : list OrderItem.t
}.
End Order.

Inductive NotificationType := TOrder | TPayment | TSystem | TProduct.

Definition typeName (t : NotificationType) : string :=
  match t with
  | TOrder => "order"
  | TPayment => "payment"
  | TSystem => "system"
  | TProduct => "product"
  end.

(** ['high' | 'medium' | 'low'] *)
Inductive Priority := high | medium | low.

(** [Omit<AppNotification, 'id' | 'createdAt'>]: what a caller hands to
    [createNotification]. *)
Module Draft.
Record t `{Host} := mk {
  type : NotificationType;
  title : string;
  message : string;
  orderId : option string;
  fournisseurId : string;
  isRead : bool;
  data : Value number
}.
End Draft.

(** A document of the collection [notifications]: the fields of
    [AppNotification] other than [id], and [readAt], which the mark-as-read
    operations add. *)
Module Notification.
Record t `{Host} := mk {
  type : NotificationType;
  title : string;
  message : string;
  orderId : option string;
  fournisseurId : string;
  isRead : bool;
  readAt : option Time;
  createdAt : Time;
  data : Value number
}.
End Notification.

(** An [AppNotification] as the reads return it: [{ id: doc.id, ...doc.data() }]. *)
Definition AppNotification `{Host} : Type := string * Notification.t.

(** ** Firestore *)

(** The collection [notifications]. *)
Abbreviation Store := (gmap string Notification.t).

Module Firestore.
Section Firestore.
Context `{Host}.

(** The query constraints the service uses. *)
Inductive Constraint :=
| WhereFournisseurId (v : string)
| WhereIsRead (v : bool)
| WhereType (v : string)
| WhereCreatedAtBefore (v : Time)
| OrderByCreatedAtDesc
| Limit (n : nat).

Definition Query := list Constraint.

Definition matches (c : Constraint) (d : Notification.t) : bool :=
  match c with
  | WhereFournisseurId v => String.eqb (Notification.fournisseurId d) v
  | WhereIsRead v => Bool.eqb (Notification.isRead d) v
  | WhereType v => String.eqb (typeName (Notification.type d)) v
  | WhereCreatedAtBefore v => (Notification.createdAt d <? v)%Z
  | OrderByCreatedAtDesc => true
  | Limit _ => true
  end.

Definition satisfies (q : Query) (d : Notification.t) : bool :=
  forallb (fun c => matches c d) q.

Definition isOrdered (q : Query) : bool :=
  existsb (fun c => match c with OrderByCreatedAtDesc => true | _ => false end) q.

Fixpoint limitOf (q : Query) : option nat :=
  match q with
  | [] => None
  | Limit n :: _ => Some n
  | _ :: rest => limitOf rest
  end.

(** Newest first; documents with one timestamp are ordered by descending
    id, as the store does for the direction of the last [orderBy]. *)
Definition newerFirst (a b : AppNotification) : bool :=
  (Notification.createdAt a.2 >? Notification.createdAt b.2)%Z
  || ((Notification.createdAt a.2 =? Notification.createdAt b.2)%Z
      && String.leb b.1 a.1).

(** The order of a query without [orderBy]: ascending document id. *)
Definition byId (a b : AppNotification) : bool := String.leb a.1 b.1.

(** [getDocs(query(collection(db, 'notifications'), ...q))]: the documents
    of the snapshot, in order. *)
Definition getDocs (q : Query) (s : Store) : list AppNotification :=
  let hits := map_to_list (filter (fun kv => satisfies q kv.2 = true) s) in
  let ordered := sortBy (if isOrdered q then newerFirst else byId) hits in
  match limitOf q with
  | Some n => take n ordered
  | None => ordered
  end.


(** The object passed to [updateDoc] and [batch.update]. *)
Record Patch := { patch_isRead : bool; patch_readAt : Time }.

Definition applyPatch (p : Patch) (d : Notification.t) : Notification.t :=
  Notification.mk _
    (Notification.type d) (Notification.title d) (Notification.message d)
    (Notification.orderId d) (Notification.fournisseurId d)
    (patch_isRead p) (Some (patch_readAt p))
    (Notification.createdAt d) (Notification.data d).

(** The writes of a batch. *)
Inductive Write :=
| WSet (id : string) (d : Notification.t)
| WUpdate (id : string) (p : Patch)
| WDelete (id : string).

(** One write: an update of a document that does not exist fails. *)
Definition applyWrite (w : Write) (s : Store) : option Store :=
  match w with
  | WSet id d => Some (<[id := d]> s)
  | WUpdate id p =>
      match s !! id with
      | Some d => Some (<[id := applyPatch p d]> s)
      | None => None
      end
  | WDelete id => Some (delete id s)
  end.

(** [batch.commit()]: all writes in order, or none ([None]: the commit is
    rejected and the collection is unchanged). *)
Fixpoint commit (ws : list Write) (s : Store) : option Store :=
  match ws with
  | [] => Some s
  | w :: rest =>
      match applyWrite w s with
      | Some s' => commit rest s'
      | None => None
      end
  end.


(** An auto-generated document id: one that is not in use. *)
Definition autoId (s : Store) : string := fresh (dom s).

End Firestore.
End Firestore.

Import Firestore.

(** ** services/notificationService.ts *)

Module NotificationService.
Section NotificationService.
Context `{Host}.

(** [createNotification]: [addDoc] of the draft with [createdAt] set from
    the clock; answers the id of the new document. *)
Definition createNotification (notification : Draft.t) (now : Time) (s : Store)
    : string * Store :=
  let docRef := autoId s in
  (docRef,
   <[docRef := Notification.mk _
       (Draft.type notification) (Draft.title notification)
       (Draft.message notification) (Draft.orderId notification)
       (Draft.fournisseurId notification) (Draft.isRead notification)
       None now (Draft.data notification)]> s).

(** The query of [getNotificationsByFournisseur]; [limitCount] defaults to
    50.  (The store rejects a limit that is not positive; the model answers
    the empty list for the limit 0.) *)
Definition notificationsQuery (fournisseurId : string) (limitCount : option nat)
    (lastNotificationId : option string) : Query :=
  [WhereFournisseurId fournisseurId; OrderByCreatedAtDesc;
   Limit (default 50%nat limitCount)].

Definition getNotificationsByFournisseur (fournisseurId : string)
    (limitCount : option nat) (lastNotificationId : option string) (s : Store)
    : list AppNotification :=
  getDocs (notificationsQuery fournisseurId limitCount lastNotificationId) s.

(** [searchNotifications]: [type] is an optional argument. *)
Definition searchNotifications (fournisseurId searchTerm : string)
    (type : option string) (s : Store) : list AppNotification :=
  let notificationsQuery :=
    match type with
    | Some t =>
        if truthy t && negb (String.eqb t "all")
        then [WhereFournisseurId fournisseurId; WhereType t; OrderByCreatedAtDesc]
        else [WhereFournisseurId fournisseurId; OrderByCreatedAtDesc]
    | None => [WhereFournisseurId fournisseurId; OrderByCreatedAtDesc]
    end in
  let notifications := getDocs notificationsQuery s in
  if truthy searchTerm then
    let lowerSearchTerm := toLowerCase searchTerm in
    List.filter
      (fun notification : AppNotification =>
         includes (toLowerCase (Notification.title notification.2)) lowerSearchTerm
         || includes (toLowerCase (Notification.message notification.2)) lowerSearchTerm)
      notifications
  else notifications.

Definition markAsRead (notificationId : string) (now : Time) (s : Store)
    : option Store :=
  applyWrite (WUpdate notificationId {| patch_isRead := true; patch_readAt := now |}) s.

Definition markMultipleAsRead (notificationIds : list string) (clock : Clock)
    (s : Store) : option Store :=
  commit
    (imap (fun i id => WUpdate id {| patch_isRead := true; patch_readAt := clock i |})
          notificationIds)
    s.

Definition unreadQuery (fournisseurId : string) : Query :=
  [WhereFournisseurId fournisseurId; WhereIsRead false].

Definition markAllAsRead (fournisseurId : string) (clock : Clock) (s : Store)
    : option Store :=
  let snapshot := getDocs (unreadQuery fournisseurId) s in
  commit
    (imap (fun i (docSnapshot : AppNotification) =>
             WUpdate docSnapshot.1 {| patch_isRead := true; patch_readAt := clock i |})
          snapshot)
    s.

Definition deleteNotification (notificationId : string) (s : Store) : option Store :=
  applyWrite (WDelete notificationId) s.


Definition getUnreadCount (fournisseurId : string) (s : Store) : nat :=
  length (getDocs (unreadQuery fournisseurId) s).

Record Stats := {
  stats_total : nat;
  stats_unread : nat;
  stats_byType : gmap string nat;
  stats_recent : nat
}.

Definition getNotificationStats (fournisseurId : string) (now : Time) (s : Store)
    : Stats :=
  let notifications := map snd (getDocs [WhereFournisseurId fournisseurId] s) in
  let yesterday := (now - 24 * 60 * 60 * 1000)%Z in
  {| stats_total := length notifications;
     stats_unread :=
       length (List.filter (fun n => negb (Notification.isRead n)) notifications);
     stats_byType :=
       fold_left
         (fun byType notification =>
            let k := typeName (Notification.type notification) in
            <[k := (default 0 (byType !! k) + 1)%nat]> byType)
         notifications ∅;
     stats_recent :=
       length (List.filter (fun n => (Notification.createdAt n >? yesterday)%Z)
                           notifications) |}.



Definition addressValue (a : DeliveryAddress.t) : Value number :=
  VObj [("street", VStr (DeliveryAddress.street a));
        ("city", VStr (DeliveryAddress.city a));
        ("postalCode", VStr (DeliveryAddress.postalCode a));
        ("country", VStr (DeliveryAddress.country a));
        ("instructions",
         match DeliveryAddress.instructions a with
         | Some i => VStr i
         | None => VUndefined
         end)].

Definition createSupplierOrderNotification (subOrder : Order.t) (now : Time)
    (s : Store) : Store :=
  let notification :=
    Draft.mk _
      TOrder
      "Nouvelle commande re√ßue! üõçÔ∏è"
      ("Vous avez re√ßu une nouvelle commande de " ++ Order.userName subOrder
       ++ " d'un montant de ‚Ç¨" ++ toFixed (Order.total subOrder) 2
       ++ ". La commande contient " ++ pretty (length (Order.items subOrder))
       ++ " article(s).")
      (Some (Order.id subOrder))
      (Order.fournisseurId subOrder)
      false
      (VObj
         [("customerName", VStr (Order.userName subOrder));
          ("customerEmail", VStr (Order.userEmail subOrder));
          ("customerPhone", VStr (Order.userPhone subOrder));
          ("orderTotal", VNum (Order.total subOrder));
          ("itemCount", VNum (num_of_nat (length (Order.items subOrder))));
          ("orderStatus", VStr (Order.status subOrder));
          ("paymentStatus", VStr (Order.paymentStatus subOrder));
          ("paymentMethod", VStr (Order.paymentMethod subOrder));
          ("deliveryAddress", addressValue (Order.deliveryAddress subOrder));
          ("orderNotes", VStr (Order.orderNotes subOrder));
          ("items",
           VArr (map (fun item =>
                        VObj [("productName", VStr (OrderItem.productName item));
                              ("quantity", VNum (OrderItem.quantity item));
                              ("unitPrice", VNum (OrderItem.unitPrice item));
                              ("totalPrice", VNum (OrderItem.totalPrice item))])
                     (Order.items subOrder)))]) in
  (createNotification notification now s).2.

(** The [switch (newStatus)] of [createSupplierPaymentNotification]: title,
    message and emoji, or [None] for the [default] branch, which returns
    without creating anything. *)
Definition paymentTexts (subOrder : Order.t) (newStatus : string)
    : option (string * string * string) :=
  if String.eqb newStatus "paid" then
    Some ("Paiement re√ßu! üí∞",
          "Le paiement de ‚Ç¨" ++ toFixed (Order.total subOrder) 2
          ++ " a √©t√© re√ßu pour la commande #" ++ sliceLast 8 (Order.id subOrder)
          ++ " de " ++ Order.userName subOrder,
          "üí∞")
  else if String.eqb newStatus "failed" then
    Some ("Paiement √©chou√© ‚ùå",
          "Le paiement a √©chou√© pour la commande #" ++ sliceLast 8 (Order.id subOrder)
          ++ " de " ++ Order.userName subOrder ++ ". Veuillez contacter le client.",
          "‚ùå")
  else if String.eqb newStatus "pending" then
    Some ("Paiement en attente ‚è≥",
          "Le paiement est en attente pour la commande #" ++ sliceLast 8 (Order.id subOrder)
          ++ " de " ++ Order.userName subOrder,
          "‚è≥")
  else if String.eqb newStatus "refunded" then
    Some ("Paiement rembours√© üí∏",
          "Le paiement de ‚Ç¨" ++ toFixed (Order.total subOrder) 2
          ++ " a √©t√© rembours√© pour la commande #" ++ sliceLast 8 (Order.id subOrder)
          ++ " de " ++ Order.userName subOrder,
          "üí∏")
  else None.

Definition createSupplierPaymentNotification (subOrder : Order.t)
    (oldStatus newStatus : string) (now : Time) (s : Store) : Store :=
  match paymentTexts subOrder newStatus with
  | None => s
  | Some (title, message, emoji) =>
      let notification :=
        Draft.mk _
          TPayment
          title
          message
          (Some (Order.id subOrder))
          (Order.fournisseurId subOrder)
          false
          (VObj
             [("customerName", VStr (Order.userName subOrder));
              ("customerEmail", VStr (Order.userEmail subOrder));
              ("orderTotal", VNum (Order.total subOrder));
              ("oldPaymentStatus", VStr oldStatus);
              ("newPaymentStatus", VStr newStatus);
              ("paymentMethod", VStr (Order.paymentMethod subOrder));
              ("emoji", VStr emoji)]) in
      (createNotification notification now s).2
  end.

Definition statusMessages : list (string * string) :=
  [("pending", "en attente");
   ("confirmed", "confirm√©e");
   ("preparing", "en pr√©paration");
   ("out_for_delivery", "en livraison");
   ("delivered", "livr√©e");
   ("cancelled", "annul√©e")].

(** [statusMessages[newStatus] || newStatus], as the template literal of
    the message renders it.  [statusMessages] is an object literal, so the
    read also finds what [Object.prototype] provides: a function, shown by
    its source text, or for [__proto__] the prototype object itself, shown
    as [[object Object]]; all of these are truthy. *)
Definition statusMessage (newStatus : string) : string :=
  match literalGet statusMessages newStatus with
  | Own phrase => orElse phrase newStatus
  | InheritedFunction name => functionToString name
  | InheritedPrototype => "[object Object]"
  | Missing => newStatus
  end.

Definition createSupplierOrderStatusNotification (subOrder : Order.t)
    (oldStatus newStatus : string) (now : Time) (s : Store) : Store :=
  let notification :=
    Draft.mk _
      TOrder
      "Statut de commande mis √† jour"
      ("La commande de " ++ Order.userName subOrder
       ++ " est maintenant " ++ statusMessage newStatus ++ ".")
      (Some (Order.id subOrder))
      (Order.fournisseurId subOrder)
      false
      (VObj
         [("customerName", VStr (Order.userName subOrder));
          ("orderTotal", VNum (Order.total subOrder));
          ("oldStatus", VStr oldStatus);
          ("newStatus", VStr newStatus);
          ("orderStatus", VStr newStatus)]) in
  (createNotification notification now s).2.





(** [daysOld] defaults to 30; answers the number of documents deleted. *)
Definition cleanupOldNotifications (fournisseurId : string) (daysOld : option Z)
    (now : Time) (s : Store) : nat * option Store :=
  let cutoffDate := daysBefore now (default 30%Z daysOld) in
  let snapshot :=
    getDocs [WhereFournisseurId fournisseurId; WhereCreatedAtBefore cutoffDate] s in
  (length snapshot,
   commit (map (fun docSnapshot : AppNotification => WDelete docSnapshot.1) snapshot) s).

(** [getNotificationPriority]: [notification.data?.newPaymentStatus === 'failed']
    decides the priority of a payment notification. *)
Definition getNotificationPriority (notification : Notification.t) : Priority :=
  match Notification.type notification with
  | TOrder => high
  | TPayment =>
      match field "newPaymentStatus" (Notification.data notification) with
      | VStr v => if String.eqb v "failed" then high else medium
      | _ => medium
      end
  | TSystem => medium
  | TProduct => low
  end.




(** The documents of one supplier. *)
Definition partition (fournisseurId : string) (s : Store) : Store :=
  filter (fun kv => Notification.fournisseurId kv.2 = fournisseurId) s.

End NotificationService.
End NotificationService.

(** ** Effects

    Code that logs, calls a provider and may throw is written in a small
    monad: a computation extends the trace of events and completes normally
    or abruptly. *)

Module Eff.

Inductive Completion (A : Type) : Type :=
| Normal (a : A)
| Throw (error : string).

Arguments Normal {A} a.
Arguments Throw {A} error.

Definition M (E A : Type) : Type := list E -> Completion A * list E.

Definition ret {E A} (a : A) : M E A := fun tr => (Normal a, tr).

Definition bind {E A B} (m : M E A) (k : A -> M E B) : M E B :=
  fun tr =>
    match m tr with
    | (Normal a, tr') => k a tr'
    | (Throw e, tr') => (Throw e, tr')
    end.

Definition throw {E A} (error : string) : M E A := fun tr => (Throw error, tr).

Definition emit {E} (e : E) : M E unit := fun tr => (Normal tt, (tr ++ [e])%list).

(** [try { body } catch (error) { handler }] *)
Definition tryCatch {E A} (body : M E A) (handler : string -> M E A) : M E A :=
  fun tr =>
    match body tr with
    | (Normal a, tr') => (Normal a, tr')
    | (Throw e, tr') => handler e tr'
    end.

(** A call into the world outside: the event is recorded and the outcome
    is the one the world gives. *)
Definition call {E A} (e : E) (outcome : Completion A) : M E A :=
  fun tr => (outcome, (tr ++ [e])%list).

End Eff.

Notation "x <- m ;; k" := (Eff.bind m (fun x => k))
  (at level 100, m at next level, right associativity).
Notation "m ;;; k" := (Eff.bind m (fun _ => k))
  (at level 100, right associativity).

(** ** services/supplierEmailService.ts *)

Module SupplierEmailService.

Record OrderEmailTemplate := {
  subject : string;
  message : string;
  type : string
}.

Definition ORDER_STATUS_TEMPLATES : list (string * OrderEmailTemplate) :=
  [
   ("pending",
    {| subject := "🆕 Nouvelle Commande Reçue - #{orderNumber}";
       message := "
      Bonjour {supplierName},
      
      Vous avez reçu une nouvelle commande !
      
      Détails de la commande:
      - Numéro de commande: #{orderNumber}
      - Client: {customerName}
      - Email: {customerEmail}
      - Téléphone: {customerPhone}
      - Montant total: €{total}
      - Articles: {itemCount} article(s)
      - Adresse de livraison: {deliveryAddress}
      
      Articles commandés:
      {orderItems}
      
      Notes de commande: {orderNotes}
      
      Veuillez confirmer cette commande dès que possible.
      
      Cordialement,
      L'équipe Optimizi
    ";
       type := "new_order" |});
   ("confirmed",
    {| subject := "✅ Commande Confirmée - #{orderNumber}";
       message := "
      Bonjour {supplierName},
      
      La commande #{orderNumber} a été confirmée et est maintenant en cours de préparation.
      
      Détails de la commande:
      - Client: {customerName}
      - Email: {customerEmail}
      - Téléphone: {customerPhone}
      - Montant total: €{total}
      - Articles: {itemCount} article(s)
      - Adresse de livraison: {deliveryAddress}
      
      Articles à préparer:
      {orderItems}
      
      Notes de commande: {orderNotes}
      
      Temps de préparation estimé: 15-30 minutes
      
      Cordialement,
      L'équipe Optimizi
    ";
       type := "order_confirmed" |});
   ("preparing",
    {| subject := "👨‍🍳 Préparation en Cours - #{orderNumber}";
       message := "
      Bonjour {supplierName},
      
      La commande #{orderNumber} est actuellement en cours de préparation.
      
      Détails de la commande:
      - Client: {customerName}
      - Email: {customerEmail}
      - Téléphone: {customerPhone}
      - Montant total: €{total}
      - Articles: {itemCount} article(s)
      - Adresse de livraison: {deliveryAddress}
      
      Articles en préparation:
      {orderItems}
      
      Notes de commande: {orderNotes}
      
      Temps de livraison estimé: 20-40 minutes
      
      Cordialement,
      L'équipe Optimizi
    ";
       type := "order_preparing" |});
   ("out_for_delivery",
    {| subject := "🚚 En Cours de Livraison - #{orderNumber}";
       message := "
      Bonjour {supplierName},
      
      La commande #{orderNumber} est maintenant en route !
      
      Détails de la commande:
      - Client: {customerName}
      - Email: {customerEmail}
      - Téléphone: {customerPhone}
      - Montant total: €{total}
      - Articles: {itemCount} article(s)
      - Adresse de livraison: {deliveryAddress}
      
      Articles livrés:
      {orderItems}
      
      Notes de commande: {orderNotes}
      
      Temps de livraison estimé: 10-20 minutes
      
      Cordialement,
      L'équipe Optimizi
    ";
       type := "order_shipped" |});
   ("delivered",
    {| subject := "🎉 Commande Livrée - #{orderNumber}";
       message := "
      Bonjour {supplierName},
      
      La commande #{orderNumber} a été livrée avec succès !
      
      Détails de la commande:
      - Client: {customerName}
      - Email: {customerEmail}
      - Téléphone: {customerPhone}
      - Montant total: €{total}
      - Articles: {itemCount} article(s)
      - Adresse de livraison: {deliveryAddress}
      
      Articles livrés:
      {orderItems}
      
      Notes de commande: {orderNotes}
      
      Merci pour votre excellent service !
      
      Cordialement,
      L'équipe Optimizi
    ";
       type := "order_delivered" |});
   ("cancelled",
    {| subject := "❌ Commande Annulée - #{orderNumber}";
       message := "
      Bonjour {supplierName},
      
      La commande #{orderNumber} a été annulée.
      
      Détails de la commande:
      - Client: {customerName}
      - Email: {customerEmail}
      - Téléphone: {customerPhone}
      - Montant total: €{total}
      - Articles: {itemCount} article(s)
      - Adresse de livraison: {deliveryAddress}
      
      Articles concernés:
      {orderItems}
      
      Notes de commande: {orderNotes}
      
      Si vous avez des questions concernant cette annulation, n'hésitez pas à nous contacter.
      
      Cordialement,
      L'équipe Optimizi
    ";
       type := "order_cancelled" |})
  ].

Section SupplierEmailService.
Context `{Host}.

Record Config := {
  serviceId : string;
  orderNotificationTemplateId : string;
  publicKey : string
}.

(** The instance: its flag and its configuration. *)
Record t := {
  isInitialized : bool;
  config : Config
}.

Record TemplateParams := {
  to_email : string;
  to_name : string;
  tp_subject : string;
  tp_message : string;
  order_id : string;
  tp_status : string;
  status_type : string;
  company_name : string;
  supplier_name : string;
  customer_name : string;
  customer_email : string;
  customer_phone : string;
  order_total : string;
  item_count : number;
  delivery_address : string;
  order_items : string;
  order_notes : string
}.

Inductive Event :=
| EmailInit (publicKey : string)
| EmailSend (serviceId templateId : string) (params : TemplateParams)
| ConsoleLog (text : string)
| ConsoleError (text : string).

(** The e-mail provider: whether [emailjs.init] and [emailjs.send] complete
    or throw (a rejected promise, under [await]). *)
Record Provider := {
  init : string -> Eff.Completion unit;
  send : string -> string -> TemplateParams -> Eff.Completion unit
}.

Definition isProviderCall (e : Event) : bool :=
  match e with
  | EmailInit _ | EmailSend _ _ _ => true
  | ConsoleLog _ | ConsoleError _ => false
  end.

Definition initialize (emailjs : Provider) (this : t) : Eff.M Event t :=
  if isInitialized this then Eff.ret this
  else
    Eff.tryCatch
      (Eff.call (EmailInit (publicKey (config this))) (init emailjs (publicKey (config this))) ;;;
       Eff.emit (ConsoleLog "Supplier EmailJS initialized successfully") ;;;
       Eff.ret {| isInitialized := true; config := config this |})
      (fun error =>
         Eff.emit (ConsoleError "Failed to initialize Supplier EmailJS:") ;;;
         Eff.ret this).

Definition newline : string := String (ascii_of_nat 10) EmptyString.

Definition formatOrderItems (items : list OrderItem.t) : string :=
  join newline
    (map (fun item =>
            "• " ++ OrderItem.productName item
            ++ " - Quantité: " ++ numberToString (OrderItem.quantity item)
            ++ " " ++ OrderItem.unit_ item
            ++ " - Prix: €" ++ toFixed (OrderItem.totalPrice item) 2)
         items).

Definition formatDeliveryAddress (address : DeliveryAddress.t) : string :=
  DeliveryAddress.street address ++ ", " ++ DeliveryAddress.city address
  ++ " " ++ DeliveryAddress.postalCode address ++ ", "
  ++ DeliveryAddress.country address.

Definition getSupplierEmail (supplierId : string) : string :=
  "supplier@example.com".

(** The part of [sendOrderNotification] that follows the lookup of a
    template among the own entries of the table. *)
Definition sendWithTemplate (emailjs : Provider) (this : t) (order : Order.t)
    (template : OrderEmailTemplate) : Eff.M Event bool :=
  let orderNumber := toUpperCase (sliceLast 8 (Order.id order)) in
  let orderItemsHtml := formatOrderItems (Order.items order) in
  let deliveryAddressFormatted := formatDeliveryAddress (Order.deliveryAddress order) in
  let personalizedMessage :=
    replaceGlobal "{orderNotes}" (orElse (Order.orderNotes order) "Aucune note")
      (replaceGlobal "{orderItems}" orderItemsHtml
        (replaceGlobal "{deliveryAddress}" deliveryAddressFormatted
          (replaceGlobal "{itemCount}" (pretty (length (Order.items order)))
            (replaceGlobal "{total}" (toFixed (Order.total order) 2)
              (replaceGlobal "{customerPhone}" (Order.userPhone order)
                (replaceGlobal "{customerEmail}" (Order.userEmail order)
                  (replaceGlobal "{customerName}" (Order.userName order)
                    (replaceGlobal "{orderNumber}" orderNumber
                      (replaceGlobal "{supplierName}" (Order.fournisseurName order)
                        (message template)))))))))) in
  let personalizedSubject :=
    replaceGlobal "{orderNumber}" orderNumber (subject template) in
  let templateParams :=
    {| to_email := getSupplierEmail (Order.fournisseurId order);
       to_name := Order.fournisseurName order;
       tp_subject := personalizedSubject;
       tp_message := personalizedMessage;
       order_id := orderNumber;
       tp_status := Order.status order;
       status_type := type template;
       company_name := "Optimizi";
       supplier_name := Order.fournisseurName order;
       customer_name := Order.userName order;
       customer_email := Order.userEmail order;
       customer_phone := Order.userPhone order;
       order_total := toFixed (Order.total order) 2;
       item_count := num_of_nat (length (Order.items order));
       delivery_address := deliveryAddressFormatted;
       order_items := orderItemsHtml;
       order_notes := orElse (Order.orderNotes order) "Aucune note" |} in
  Eff.call
    (EmailSend (serviceId (config this)) (orderNotificationTemplateId (config this))
               templateParams)
    (send emailjs (serviceId (config this)) (orderNotificationTemplateId (config this))
          templateParams) ;;;
  Eff.emit (ConsoleLog "Supplier order notification email sent successfully:") ;;;
  Eff.ret true.

(** [sendOrderNotification].  [ORDER_STATUS_TEMPLATES[order.status]] reads an
    object literal: for a status that names a property of
    [Object.prototype] the value found is truthy and has no [message], and
    [template.message.replace] throws a [TypeError] inside the [try]. *)
Definition sendOrderNotification (emailjs : Provider) (this : t) (order : Order.t)
    : Eff.M Event bool :=
  if negb (isInitialized this) then
    Eff.emit (ConsoleError "Supplier EmailJS not initialized") ;;;
    Eff.ret false
  else
    Eff.tryCatch
      (match literalGet ORDER_STATUS_TEMPLATES (Order.status order) with
       | Missing =>
           Eff.emit (ConsoleError ("No email template found for status: "
                                   ++ Order.status order)) ;;;
           Eff.ret false
       | Own template => sendWithTemplate emailjs this order template
       | InheritedFunction _ | InheritedPrototype =>
           Eff.throw "TypeError: Cannot read properties of undefined (reading 'replace')"
       end)
      (fun error =>
         Eff.emit (ConsoleError "Failed to send supplier order notification email:") ;;;
         Eff.ret false).

End SupplierEmailService.
End SupplierEmailService.

(** ** types/notifications.ts and the enhanced notification page *)

Inductive EnhancedType :=
| EOrder | EPayment | EInventory | EProduct | EAccount | EMarketing | ESystem.

Definition enhancedTypeName (t : EnhancedType) : string :=
  match t with
  | EOrder => "order"
  | EPayment => "payment"
  | EInventory => "inventory"
  | EProduct => "product"
  | EAccount => "account"
  | EMarketing => "marketing"
  | ESystem => "system"
  end.

Module EnhancedNotification.
Record t `{Host} := mk {
  id : string;
  type : EnhancedType;
  subType : string;
  title : string;
  message : string;
  priority : Priority;
  fournisseurId : string;
  fournisseurName : string;
  orderId : option string;
  productId : option string;
  customerId : option string;
  campaignId : option string;
  isRead : bool;
  readAt : option Time;
  isArchived : bool;
  archivedAt : option Time;
  emailSent : bool;
  emailSentAt : option Time;
  smsSent : bool;
  smsSentAt : option Time;
  clicked : bool;
  clickedAt : option Time;
  actionTaken : bool;
  actionTakenAt : option Time;
  data : Value number;
  expiresAt : option Time;
  createdAt : Time;
  updatedAt : Time
}.
End EnhancedNotification.

Module EnhancedNotifications.
Section EnhancedNotifications.
Context `{Host}.

(** [const priorityOrder = { high: 3, medium: 2, low: 1 }]; every priority
    of the declared type has a non-zero entry, so [|| 0] changes nothing. *)
Definition priorityOrder (p : Priority) : Z :=
  match p with
  | high => 3
  | medium => 2
  | low => 1
  end.

(** The comparator handed to [filtered.sort]. *)
Definition compareNotifications (sortBy : string) (a b : EnhancedNotification.t) : Z :=
  let newestFirst :=
    (EnhancedNotification.createdAt b - EnhancedNotification.createdAt a)%Z in
  if String.eqb sortBy "oldest" then
    (EnhancedNotification.createdAt a - EnhancedNotification.createdAt b)%Z
  else if String.eqb sortBy "priority" then
    let aPriority := priorityOrder (EnhancedNotification.priority a) in
    let bPriority := priorityOrder (EnhancedNotification.priority b) in
    if (aPriority =? bPriority)%Z then newestFirst
    else (bPriority - aPriority)%Z
  else if String.eqb sortBy "unread" then
    if Bool.eqb (EnhancedNotification.isRead a) (EnhancedNotification.isRead b)
    then newestFirst
    else if EnhancedNotification.isRead a then 1%Z else (-1)%Z
  else if String.eqb sortBy "type" then
    if String.eqb (enhancedTypeName (EnhancedNotification.type a))
                  (enhancedTypeName (EnhancedNotification.type b))
    then newestFirst
    else localeCompare (enhancedTypeName (EnhancedNotification.type a))
                       (enhancedTypeName (EnhancedNotification.type b))
  else newestFirst.

Definition matchesSearch (searchTerm : string) (notification : EnhancedNotification.t)
    : bool :=
  String.eqb searchTerm ""
  || includes (toLowerCase (EnhancedNotification.title notification))
              (toLowerCase searchTerm)
  || includes (toLowerCase (EnhancedNotification.message notification))
              (toLowerCase searchTerm).

Definition filteredAndSortedNotifications
    (notifications : list EnhancedNotification.t) (searchTerm sortBy : string)
    : list EnhancedNotification.t :=
  let filtered := List.filter (matchesSearch searchTerm) notifications in
  arraySort (compareNotifications sortBy) filtered.

(** Modelled from the spec: [clicked_count], the number of notifications
    of the set whose [clicked] flag is set. *)
Definition clickedCount (notifications : list EnhancedNotification.t) : nat :=
  length (List.filter EnhancedNotification.clicked notifications).

(** Modelled from the spec: [EnhancedNotificationService.getNotificationStats]
    is not among the sources; only the declaration of [NotificationStats]
    and the page that displays [stats.clickThroughRate] are.  The spec gives
    [clickThroughRate = clicked_count / total * 100], and 0 when [total] is
    0.  The quotient is taken in the rationals. *)
Definition clickThroughRate (notifications : list EnhancedNotification.t) : Q :=
  let total := length notifications in
  if Nat.eqb total 0 then 0%Q
  else (inject_Z (Z.of_nat (clickedCount notifications))
        / inject_Z (Z.of_nat total) * 100)%Q.

End EnhancedNotifications.
End EnhancedNotifications.

(** ** A host for running the model

    Numbers are rationals (every finite double is one) and [toFixed] rounds
    them as the language specifies below 1e21; a number in a template is
    printed as its nearest integer, which is exact on the whole quantities
    of the samples; case mapping covers ASCII letters; replacement texts
    are taken literally. *)

Module PlainHost.

Fixpoint zeros (n : nat) : string :=
  match n with O => "" | S n' => "0" ++ zeros n' end.

Definition toFixedQ (x : Q) (digits : nat) : string :=
  let negative := (Qnum x <? 0)%Z in
  let ax := Qabs x in
  let scaled := (ax * inject_Z (10 ^ Z.of_nat digits))%Q in
  let n := Qfloor (scaled + (1 # 2))%Q in
  let m := pretty (Z.to_N n) in
  let k := String.length m in
  let m := if (k <=? digits)%nat then zeros (digits + 1 - k) ++ m else m in
  let k := String.length m in
  let text :=
    if (digits =? 0)%nat then m
    else substring 0 (k - digits) m ++ "." ++ substring (k - digits) digits m in
  if negative then "-" ++ text else text.

Definition mapAscii (f : ascii -> ascii) : string -> string :=
  fix go (s : string) : string :=
    match s with
    | EmptyString => EmptyString
    | String c rest => String (f c) (go rest)
    end.

Definition lowerAscii (c : ascii) : ascii :=
  let n := nat_of_ascii c in
  if ((65 <=? n) && (n <=? 90))%nat then ascii_of_nat (n + 32) else c.

Definition upperAscii (c : ascii) : ascii :=
  let n := nat_of_ascii c in
  if ((97 <=? n) && (n <=? 122))%nat then ascii_of_nat (n - 32) else c.

Fixpoint replaceFrom (pat repl : string) (skip : nat) (s : string) : string :=
  match s with
  | EmptyString => EmptyString
  | String c rest =>
      match skip with
      | S skip' => replaceFrom pat repl skip' rest
      | O =>
          if truthy pat && String.prefix pat s
          then repl ++ replaceFrom pat repl (String.length pat - 1) rest
          else String c (replaceFrom pat repl 0 rest)
      end
  end.

Definition host : Host := {|
  number := Q;
  num_of_nat := fun n => inject_Z (Z.of_nat n);
  toFixed := toFixedQ;
  numberToString := fun x => toFixedQ x 0;
  toLowerCase := mapAscii lowerAscii;
  toUpperCase := mapAscii upperAscii;
  replaceGlobal := fun pat repl s => replaceFrom pat repl 0 s;
  localeCompare := fun a b =>
    match String.compare a b with Lt => (-1)%Z | Eq => 0%Z | Gt => 1%Z end;
  functionToString := fun name => "function " ++ name ++ "() { [native code] }";
  daysBefore := fun t n => (t - n * 86400000)%Z
|}.

End PlainHost.

(** ** Sample data: the test order of the e-mail test component *)

Module Sample.
Section Sample.
#[local] Existing Instance PlainHost.host.

Definition testOrder : Order.t :=
  Order.mk _
    "TEST123456789" "TEST123456789" "test-supplier-123" "Test Supplier"
    "test-customer-123" "test@example.com" "Test Customer" "+1234567890"
    (2599 # 100)%Q 5%Q (260 # 100)%Q (3359 # 100)%Q
    "pending" "pending" "Credit Card"
    (DeliveryAddress.mk "123 Test Street" "Test City" "12345" "Test Country"
       (Some "Ring doorbell twice"))
    "This is a test order for email verification" 0%Z 0%Z
    [OrderItem.mk _ "prod-1" "Test Product 1" "https://via.placeholder.com/100"
       2%Q (1299 # 100)%Q (2598 # 100)%Q "pieces";
     OrderItem.mk _ "prod-2" "Test Product 2" "https://via.placeholder.com/100"
       1%Q (761 # 100)%Q (761 # 100)%Q "pieces"].

Definition doc (fournisseurId : string) (isRead : bool) (createdAt : Time)
    : Notification.t :=
  Notification.mk _ TSystem "title" "message" None fournisseurId isRead None
    createdAt VUndefined.

(** Two collections that differ only in a document of another supplier. *)
Definition storeA : Store :=
  <["n1" := doc "supplier-1" false 10%Z]>
    (<["n2" := doc "supplier-1" true 20%Z]> ∅).


Definition enhanced (id : string) (p : Priority) (clicked : bool) (createdAt : Time)
    : EnhancedNotification.t :=
  EnhancedNotification.mk _ id EOrder "new_order" "title" "message" p
    "supplier-1" "Supplier" None None None None
    false None false None false None false None clicked None false None
    VUndefined None createdAt createdAt.

(** Three notifications of mixed priority with overlapping timestamps. *)
Definition mixed : list EnhancedNotification.t :=
  [enhanced "a" medium false 300%Z; enhanced "b" high true 100%Z;
   enhanced "c" high false 300%Z].

Definition okProvider : SupplierEmailService.Provider :=
  {| SupplierEmailService.init := fun _ => Eff.Normal tt;
     SupplierEmailService.send := fun _ _ _ => Eff.Normal tt |}.

Definition failingProvider : SupplierEmailService.Provider :=
  {| SupplierEmailService.init := fun _ => Eff.Normal tt;
     SupplierEmailService.send := fun _ _ _ => Eff.Throw "network error" |}.

Definition service (initialized : bool) : SupplierEmailService.t :=
  {| SupplierEmailService.isInitialized := initialized;
     SupplierEmailService.config :=
       {| SupplierEmailService.serviceId := "service";
          SupplierEmailService.orderNotificationTemplateId := "template";
          SupplierEmailService.publicKey := "key" |} |}.

End Sample.
End Sample.

(** ** Vocabulary of the properties *)

Section Vocabulary.
Context `{Host}.

(** The payment statuses of the [switch] in
    [createSupplierPaymentNotification]. *)
Definition paymentStatuses : list string := ["paid"; "failed"; "pending"; "refunded"].


(** The unread documents of one supplier. *)
Definition unreadOf (fournisseurId : string) (s : Store) : Store :=
  filter (fun kv => Notification.fournisseurId kv.2 = fournisseurId
                    /\ Notification.isRead kv.2 = false) s.


(** The order the comparator of key [priority] induces: a higher priority
    first, and within one priority the newer first. *)
Definition byPriority (a b : EnhancedNotification.t) : Prop :=
  (EnhancedNotifications.priorityOrder (EnhancedNotification.priority b)
     < EnhancedNotifications.priorityOrder (EnhancedNotification.priority a))%Z
  \/ (EnhancedNotification.priority a = EnhancedNotification.priority b
      /\ (EnhancedNotification.createdAt b <= EnhancedNotification.createdAt a)%Z).

Definition writeId (w : Write) : string :=
  match w with
  | WSet id _ => id
  | WUpdate id _ => id
  | WDelete id => id
  end.

(** An update that marks an existing document as read. *)
Definition marksExisting (s : Store) (w : Write) : Prop :=
  exists id p, w = WUpdate id p /\ patch_isRead p = true /\ is_Some (s !! id).



End Vocabulary.

(** ** Relative times

    [NotificationService.formatNotificationTime] and the [formatTimeAgo] of
    components/notifications/NotificationCenter.tsx.  [now] is the reading
    of [new Date()]; [toLocaleDateString] is the host's rendering of a
    date. *)

Module TimeFormat.

(** [Math.floor((now.getTime() - date.getTime()) / (1000 * 60))] *)
Definition diffInMinutes (createdAt now : Time) : Z :=
  ((now - createdAt) / (1000 * 60))%Z.

Definition formatNotificationTime (toLocaleDateString : Time -> string)
    (createdAt now : Time) : string :=
  let diffInMinutes := diffInMinutes createdAt now in
  if (diffInMinutes <? 1)%Z then "Just now"
  else if (diffInMinutes <? 60)%Z then pretty diffInMinutes ++ "m ago"
  else if (diffInMinutes <? 1440)%Z then pretty (diffInMinutes / 60)%Z ++ "h ago"
  else if (diffInMinutes <? 10080)%Z then pretty (diffInMinutes / 1440)%Z ++ "d ago"
  else toLocaleDateString createdAt.

Definition formatTimeAgo (dateString now : Time) : string :=
  let diffInMinutes := diffInMinutes dateString now in
  if (diffInMinutes <? 1)%Z then "Just now"
  else if (diffInMinutes <? 60)%Z then pretty diffInMinutes ++ "m ago"
  else if (diffInMinutes <? 1440)%Z then pretty (diffInMinutes / 60)%Z ++ "h ago"
  else pretty (diffInMinutes / 1440)%Z ++ "d ago".

End TimeFormat.

(** ** The configuration of the e-mail service *)

Module EmailConfiguration.
Import SupplierEmailService.

(** The three variables of [import.meta.env] the service reads; [None] is
    a variable that is not set. *)
Record Env := {
  VITE_EMAILJS_SERVICE_ID : option string;
  VITE_EMAILJS_SUPPLIER_ORDER_TEMPLATE_ID : option string;
  VITE_EMAILJS_PUBLIC_KEY : option string
}.

(** [value || fallback] for a variable that may be undefined. *)
Definition envOr (value : option string) (fallback : string) : string :=
  match value with
  | Some v => orElse v fallback
  | None => fallback
  end.

(** The initializer of the field [config]. *)
Definition configOf (env : Env) : Config :=
  {| serviceId := envOr (VITE_EMAILJS_SERVICE_ID env) "YOUR_EMAILJS_SERVICE_ID";
     orderNotificationTemplateId :=
       envOr (VITE_EMAILJS_SUPPLIER_ORDER_TEMPLATE_ID env)
             "YOUR_SUPPLIER_ORDER_TEMPLATE_ID";
     publicKey := envOr (VITE_EMAILJS_PUBLIC_KEY env) "YOUR_EMAILJS_PUBLIC_KEY" |}.

Definition isConfigured (config : Config) : bool :=
  negb (String.eqb (serviceId config) "YOUR_EMAILJS_SERVICE_ID")
  && negb (String.eqb (orderNotificationTemplateId config)
                      "YOUR_SUPPLIER_ORDER_TEMPLATE_ID")
  && negb (String.eqb (publicKey config) "YOUR_EMAILJS_PUBLIC_KEY").

Record ConfigStatus := {
  status_isConfigured : bool;
  missingFields : list string
}.

Definition getConfigStatus (config : Config) : ConfigStatus :=
  let missingFields : list string := [] in
  let missingFields :=
    if String.eqb (serviceId config) "YOUR_EMAILJS_SERVICE_ID"
    then (missingFields ++ ["VITE_EMAILJS_SERVICE_ID"])%list else missingFields in
  let missingFields :=
    if String.eqb (orderNotificationTemplateId config) "YOUR_SUPPLIER_ORDER_TEMPLATE_ID"
    then (missingFields ++ ["VITE_EMAILJS_SUPPLIER_ORDER_TEMPLATE_ID"])%list
    else missingFields in
  let missingFields :=
    if String.eqb (publicKey config) "YOUR_EMAILJS_PUBLIC_KEY"
    then (missingFields ++ ["VITE_EMAILJS_PUBLIC_KEY"])%list else missingFields in
  {| status_isConfigured := Nat.eqb (length missingFields) 0;
     missingFields := missingFields |}.

End EmailConfiguration.

(** ** hooks/useNotifications.ts

    The state of the hook and the functions it hands out, each run to its
    end without another update of the state in between: the list
    [notifications] a function closes over is then the current one. *)

Module UseNotifications.
Section UseNotifications.
Context `{Host}.

Record State := {
  notifications : list AppNotification;
  unreadCount : Z;
  loading : bool;
  error : option string
}.

(** [{ ...notification, isRead: true }] *)
Definition asRead (notification : AppNotification) : AppNotification :=
  (notification.1,
   Notification.mk _
     (Notification.type notification.2) (Notification.title notification.2)
     (Notification.message notification.2) (Notification.orderId notification.2)
     (Notification.fournisseurId notification.2) true
     (Notification.readAt notification.2) (Notification.createdAt notification.2)
     (Notification.data notification.2)).

(** [fournisseurId] is [string | null]; [!fournisseurId] also holds for the
    empty string. *)
Definition present (fournisseurId : option string) : option string :=
  match fournisseurId with
  | Some f => if truthy f then Some f else None
  | None => None
  end.

Definition fetchNotifications (fournisseurId : option string) (s : Store)
    (st : State) : State :=
  match present fournisseurId with
  | None =>
      {| notifications := notifications st; unreadCount := unreadCount st;
         loading := false; error := error st |}
  | Some f =>
      {| notifications := NotificationService.getNotificationsByFournisseur f None None s;
         unreadCount := Z.of_nat (NotificationService.getUnreadCount f s);
         loading := false;
         error := None |}
  end.

Definition failed (st : State) (text : string) : State :=
  {| notifications := notifications st; unreadCount := unreadCount st;
     loading := loading st; error := Some text |}.

Definition markAsRead (notificationId : string) (now : Time) (s : Store)
    (st : State) : Store * State :=
  match NotificationService.markAsRead notificationId now s with
  | Some s' =>
      (s',
       {| notifications :=
            map (fun notification : AppNotification =>
                   if String.eqb notification.1 notificationId
                   then asRead notification else notification)
                (notifications st);
          unreadCount := Z.max 0 (unreadCount st - 1);
          loading := loading st;
          error := error st |})
  | None => (s, failed st "Failed to mark notification as read")
  end.

(** [notificationIds.includes(id)] *)
Definition includesId (notificationIds : list string) (id : string) : bool :=
  existsb (String.eqb id) notificationIds.

Definition markMultipleAsRead (notificationIds : list string) (clock : Clock)
    (s : Store) (st : State) : Store * State :=
  match NotificationService.markMultipleAsRead notificationIds clock s with
  | Some s' =>
      let unreadInSelection :=
        length (List.filter
                  (fun n : AppNotification =>
                     includesId notificationIds n.1
                     && negb (Notification.isRead n.2))
                  (notifications st)) in
      (s',
       {| notifications :=
            map (fun notification : AppNotification =>
                   if includesId notificationIds notification.1
                   then asRead notification else notification)
                (notifications st);
          unreadCount := Z.max 0 (unreadCount st - Z.of_nat unreadInSelection);
          loading := loading st;
          error := error st |})
  | None => (s, failed st "Failed to mark notifications as read")
  end.

Definition markAllAsRead (fournisseurId : option string) (clock : Clock)
    (s : Store) (st : State) : Store * State :=
  match present fournisseurId with
  | None => (s, st)
  | Some f =>
      match NotificationService.markAllAsRead f clock s with
      | Some s' =>
          (s',
           {| notifications := map asRead (notifications st);
              unreadCount := 0;
              loading := loading st;
              error := error st |})
      | None => (s, failed st "Failed to mark all notifications as read")
      end
  end.

Definition deleteNotification (notificationId : string) (s : Store) (st : State)
    : Store * State :=
  match NotificationService.deleteNotification notificationId s with
  | Some s' =>
      let deletedNotification :=
        List.find (fun n : AppNotification => String.eqb n.1 notificationId)
                  (notifications st) in
      (s',
       {| notifications :=
            List.filter (fun n : AppNotification => negb (String.eqb n.1 notificationId))
                        (notifications st);
          unreadCount :=
            match deletedNotification with
            | Some deleted =>
                if negb (Notification.isRead deleted.2)
                then Z.max 0 (unreadCount st - 1) else unreadCount st
            | None => unreadCount st
            end;
          loading := loading st;
          error := error st |})
  | None => (s, failed st "Failed to delete notification")
  end.

(** The notifications the listener shows in the browser: created in the
    last 10 seconds and unread. *)
Definition recentNotifications (newNotifications : list AppNotification)
    (now : Time) : list AppNotification :=
  List.filter
    (fun notification : AppNotification =>
       (now - Notification.createdAt notification.2 <? 10000)%Z
       && negb (Notification.isRead notification.2))
    newNotifications.

End UseNotifications.
End UseNotifications.

(** ** Vocabulary of further properties *)

Section MoreVocabulary.
Context `{Host}.

(** The document is an unread one of the supplier. *)
Definition isUnreadOf (fournisseurId : string) (d : Notification.t) : bool :=
  String.eqb (Notification.fournisseurId d) fournisseurId
  && negb (Notification.isRead d).

(** What the document, if any, adds to the unread count of the supplier. *)
Definition unreadAt (fournisseurId : string) (o : option Notification.t) : nat :=
  match o with
  | Some d => if isUnreadOf fournisseurId d then 1 else 0
  | None => 0
  end.


(** The fields of a document that marking as read leaves alone. *)
Definition content (d : Notification.t)
    : NotificationType * string * string * option string * string * Time
      * Value number :=
  (Notification.type d, Notification.title d, Notification.message d,
   Notification.orderId d, Notification.fournisseurId d,
   Notification.createdAt d, Notification.data d).

(** The document is one of the supplier older than the cutoff. *)
Definition expired (fournisseurId : string) (cutoff : Time)
    (kv : string * Notification.t) : Prop :=
  Notification.fournisseurId kv.2 = fournisseurId
  /\ (Notification.createdAt kv.2 < cutoff)%Z.

(** An environment variable is set to a text other than the placeholder. *)
Definition usable (value : option string) (placeholder : string) : bool :=
  match value with
  | Some v => truthy v && negb (String.eqb v placeholder)
  | None => false
  end.


(** Newest first, oldest first, and unread before read with the newer
    first among equals. *)
Definition newestFirst (a b : EnhancedNotification.t) : Prop :=
  (EnhancedNotification.createdAt b <= EnhancedNotification.createdAt a)%Z.

Definition oldestFirst (a b : EnhancedNotification.t) : Prop :=
  (EnhancedNotification.createdAt a <= EnhancedNotification.createdAt b)%Z.

Definition unreadFirst (a b : EnhancedNotification.t) : Prop :=
  (EnhancedNotification.isRead a = false /\ EnhancedNotification.isRead b = true)
  \/ (EnhancedNotification.isRead a = EnhancedNotification.isRead b
      /\ (EnhancedNotification.createdAt b <= EnhancedNotification.createdAt a)%Z).

(** One step of the count by type in [getNotificationStats]. *)
Definition byTypeStep (byType : gmap string nat) (notification : Notification.t)
    : gmap string nat :=
  let k := typeName (Notification.type notification) in
  <[k := (default 0 (byType !! k) + 1)%nat]> byType.

(** The document has the type. *)
Definition ofType (t : NotificationType) (n : Notification.t) : bool :=
  String.eqb (typeName (Notification.type n)) (typeName t).

(** The notification passes the type filter of [searchNotifications]. *)
Definition typeFilter (type : option string) (n : AppNotification) : Prop :=
  match type with
  | Some t =>
      if truthy t && negb (String.eqb t "all")
      then typeName (Notification.type n.2) = t else True
  | None => True
  end.

End MoreVocabulary.

(** ** More sample data *)

Module MoreSamples.
Section MoreSamples.
#[local] Existing Instance PlainHost.host.

(** The state of the hook after [fetchNotifications] on the sample
    collection. *)
Definition hookState : UseNotifications.State :=
  UseNotifications.fetchNotifications (Some "supplier-1") Sample.storeA
    {| UseNotifications.notifications := [];
       UseNotifications.unreadCount := 0;
       UseNotifications.loading := true;
       UseNotifications.error := None |}.


End MoreSamples.
End MoreSamples.


(** * Properties *)

(** ** Strings *)

Lemma prefix_app (a b : string) : String.prefix a (a ++ b) = true.
Proof.
  induction a as [|c a IH]; simpl.
  - by destruct b.
  - destruct (ascii_dec c c); [exact IH | congruence].
Qed.

Lemma includes_app_r (a b : string) : includes (a ++ b) a = true.
Proof.
  destruct a as [|c a]; simpl.
  - by destruct b.
  - apply orb_true_iff. left.
    destruct (ascii_dec c c); [apply prefix_app | congruence].
Qed.

Lemma includes_app_l (a b needle : string) :
  includes b needle = true -> includes (a ++ b) needle = true.
Proof.
  intros Hb. induction a as [|c a IH]; simpl; [exact Hb |].
  rewrite IH. apply orb_true_r.
Qed.

Lemma includes_middle (a b c : string) : includes (a ++ b ++ c) b = true.
Proof. apply includes_app_l, includes_app_r. Qed.

(** ** The store *)

Section StoreFacts.
Context `{Host}.

Lemma autoId_fresh (s : Store) : s !! autoId s = None.
Proof. apply not_elem_of_dom. unfold autoId. apply is_fresh. Qed.

Lemma createNotification_store (n : Draft.t) (now : Time) (s : Store) :
  (NotificationService.createNotification n now s).2
  = <[autoId s :=
        Notification.mk _ (Draft.type n) (Draft.title n) (Draft.message n)
          (Draft.orderId n) (Draft.fournisseurId n) (Draft.isRead n) None now
          (Draft.data n)]> s.
Proof. reflexivity. Qed.

Lemma insert_fresh_size (s : Store) (d : Notification.t) :
  size (<[autoId s := d]> s) = S (size s).
Proof. apply map_size_insert_None, autoId_fresh. Qed.

End StoreFacts.

Section PaymentFacts.
Context `{Host}.
Import NotificationService.

Lemma paymentTexts_known (o : Order.t) (newStatus : string) :
  newStatus ∈ paymentStatuses -> is_Some (paymentTexts o newStatus).
Proof.
  unfold paymentStatuses. rewrite !elem_of_cons, elem_of_nil.
  intros [->|[->|[->|[->|[]]]]]; vm_compute; eauto.
Qed.

Lemma paymentTexts_unknown (o : Order.t) (newStatus : string) :
  newStatus ∉ paymentStatuses -> paymentTexts o newStatus = None.
Proof.
  unfold paymentStatuses. rewrite !not_elem_of_cons. intros (H1 & H2 & H3 & H4 & _).
  unfold paymentTexts.
  repeat match goal with
  | |- context [String.eqb ?a ?b] =>
      destruct (String.eqb_spec a b); [congruence |]
  end.
  reflexivity.
Qed.

(** A payment status of the switch creates exactly one document, of type
    [payment], carrying the new status. *)
Lemma payment_known_creates_one (o : Order.t) (oldStatus newStatus : string)
    (now : Time) (s : Store) :
  newStatus ∈ paymentStatuses ->
  exists d,
    createSupplierPaymentNotification o oldStatus newStatus now s = <[autoId s := d]> s
    /\ size (createSupplierPaymentNotification o oldStatus newStatus now s) = S (size s)
    /\ Notification.type d = TPayment
    /\ field "newPaymentStatus" (Notification.data d) = VStr newStatus
    /\ Notification.isRead d = false
    /\ Notification.readAt d = None.
Proof.
  intros Hin. destruct (paymentTexts_known o newStatus Hin) as [[[t m] e] Htexts].
  unfold createSupplierPaymentNotification. rewrite Htexts.
  rewrite createNotification_store. simpl.
  eexists. split; [reflexivity |]. split; [apply insert_fresh_size |].
  repeat split.
Qed.

(** Any other status leaves the collection as it is. *)
Lemma payment_unknown_creates_none (o : Order.t) (oldStatus newStatus : string)
    (now : Time) (s : Store) :
  newStatus ∉ paymentStatuses ->
  createSupplierPaymentNotification o oldStatus newStatus now s = s.
Proof.
  intros Hout. unfold createSupplierPaymentNotification.
  by rewrite paymentTexts_unknown.
Qed.

(** C1, at [newStatus = "paid"]: one document of type [payment] with
    [data.newPaymentStatus = "paid"] is created, and its title is the
    literal of the source, [Paiement re], U+221A, U+00DF, [u! ...], which
    does not contain the word [reçu]. *)
Theorem payment_paid_title (subOrder : Order.t) (oldStatus : string)
    (now : Time) (s : Store) :
  exists d,
    createSupplierPaymentNotification subOrder oldStatus "paid" now s
      = <[autoId s := d]> s
    /\ s !! autoId s = None
    /\ Notification.type d = TPayment
    /\ field "newPaymentStatus" (Notification.data d) = VStr "paid"
    /\ Notification.title d = "Paiement re√ßu! üí∞"
    /\ includes (Notification.title d) "reçu" = false
    /\ includes (Notification.title d) "re√ßu" = true.
Proof.
  eexists. split; [reflexivity |]. split; [apply autoId_fresh |].
  repeat split; vm_compute; reflexivity.
Qed.

End PaymentFacts.

Lemma includes_fourth (a b c x d : string) :
  includes (a ++ b ++ c ++ x ++ d) x = true.
Proof. do 3 apply includes_app_l. apply includes_app_r. Qed.

Section StatusFacts.
Context `{Host}.
Import NotificationService.

Lemma statusMessage_known (newStatus phrase : string) :
  (newStatus, phrase) ∈ statusMessages -> statusMessage newStatus = phrase.
Proof.
  unfold statusMessages. rewrite !elem_of_cons, elem_of_nil.
  intros [E|[E|[E|[E|[E|[E|[]]]]]]]; injection E as -> ->; reflexivity.
Qed.

Lemma createSupplierOrderStatusNotification_store (o : Order.t)
    (oldStatus newStatus : string) (now : Time) (s : Store) :
  exists d,
    createSupplierOrderStatusNotification o oldStatus newStatus now s
      = <[autoId s := d]> s
    /\ Notification.message d
       = "La commande de " ++ Order.userName o ++ " est maintenant "
         ++ statusMessage newStatus ++ "."
    /\ Notification.isRead d = false /\ Notification.readAt d = None.
Proof. eexists. split; [reflexivity |]. repeat split. Qed.

(** For the six statuses of the table the message contains the phrase of
    the table. *)
Lemma status_known_phrase (o : Order.t) (oldStatus newStatus phrase : string)
    (now : Time) (s : Store) :
  (newStatus, phrase) ∈ statusMessages ->
  exists d,
    createSupplierOrderStatusNotification o oldStatus newStatus now s
      = <[autoId s := d]> s
    /\ includes (Notification.message d) phrase = true.
Proof.
  intros Hin.
  destruct (createSupplierOrderStatusNotification_store o oldStatus newStatus now s)
    as (d & Hs & Hm & _).
  exists d. split; [exact Hs |].
  rewrite Hm, (statusMessage_known _ _ Hin). apply includes_fourth.
Qed.

(** A status that is neither in the table nor a property of
    [Object.prototype] is echoed. *)
Lemma status_unknown_echoed (o : Order.t) (oldStatus newStatus : string)
    (now : Time) (s : Store) :
  literalGet statusMessages newStatus = Missing ->
  exists d,
    createSupplierOrderStatusNotification o oldStatus newStatus now s
      = <[autoId s := d]> s
    /\ includes (Notification.message d) newStatus = true.
Proof.
  intros Hmiss.
  destruct (createSupplierOrderStatusNotification_store o oldStatus newStatus now s)
    as (d & Hs & Hm & _).
  exists d. split; [exact Hs |].
  rewrite Hm. unfold statusMessage. rewrite Hmiss. apply includes_fourth.
Qed.

End StatusFacts.

Section StatusAtProto.
#[local] Existing Instance PlainHost.host.
Import NotificationService.

(** C4, at [newStatus = "__proto__"], a status outside the table: the read
    [statusMessages["__proto__"]] finds the prototype of the object literal,
    which is truthy, so the fallback to the raw status is not taken; the
    message of the one document created ends in [[object Object]] and does
    not contain the status. *)
Theorem status_proto_not_echoed :
  ownProp statusMessages "__proto__" = None
  /\ map (fun kv : AppNotification => Notification.message kv.2)
       (map_to_list
          (createSupplierOrderStatusNotification Sample.testOrder "pending"
             "__proto__" 1000%Z ∅))
     = ["La commande de Test Customer est maintenant [object Object]."]
  /\ includes "La commande de Test Customer est maintenant [object Object]."
              "__proto__" = false.
Proof. repeat split. Qed.

End StatusAtProto.

(** ** Sorting *)

Section SortFacts.
Context {A : Type} (le : A -> A -> bool) (R : A -> A -> Prop).
Hypothesis R_trans : forall x y z, R x y -> R y z -> R x z.
Hypothesis le_sound : forall x y, le x y = true -> R x y.
Hypothesis le_total : forall x y, le x y = false -> R y x.

Lemma insertBy_perm (x : A) (l : list A) : insertBy le x l ≡ₚ x :: l.
Proof.
  induction l as [|y l IH]; simpl; [done |].
  destruct (le x y); [done |].
  rewrite IH. apply perm_swap.
Qed.

Lemma sortBy_perm (l : list A) : sortBy le l ≡ₚ l.
Proof.
  induction l as [|x l IH]; simpl; [done |].
  rewrite insertBy_perm. by f_equiv.
Qed.

Lemma insertBy_sorted (x : A) (l : list A) :
  StronglySorted R l -> StronglySorted R (insertBy le x l).
Proof.
  induction 1 as [|y l Hsorted IH Hall]; simpl.
  - repeat constructor.
  - destruct (le x y) eqn:Hxy.
    + constructor; [by constructor |].
      constructor; [by apply le_sound |].
      eapply Forall_impl; [exact Hall |].
      intros z Hyz. eapply R_trans; [apply le_sound, Hxy | exact Hyz].
    + constructor; [exact IH |].
      rewrite insertBy_perm. constructor; [by apply le_total | exact Hall].
Qed.

Lemma sortBy_sorted (l : list A) : StronglySorted R (sortBy le l).
Proof.
  induction l as [|x l IH]; simpl; [constructor |].
  by apply insertBy_sorted.
Qed.

End SortFacts.

Lemma StronglySorted_lookup_lt {A} (R : A -> A -> Prop) (l : list A) (i j : nat) (a b : A) :
  StronglySorted R l -> l !! i = Some a -> l !! j = Some b -> (i < j)%nat -> R a b.
Proof.
  intros Hsorted. revert i j.
  induction Hsorted as [|x l Hsorted IH Hall]; intros i j Hi Hj Hlt.
  - by rewrite lookup_nil in Hi.
  - destruct j as [|j]; [lia |].
    destruct i as [|i]; simpl in *.
    + injection Hi as ->. rewrite Forall_forall in Hall.
      apply Hall. by eapply list_elem_of_lookup_2.
    + apply (IH i j); [done | done | lia].
Qed.

(** ** The enhanced notification page *)

Section PageFacts.
Context `{Host}.
Import EnhancedNotifications.

Lemma priorityOrder_inj (p q : Priority) : priorityOrder p = priorityOrder q -> p = q.
Proof. by destruct p, q. Qed.

Lemma compare_priority_spec (a b : EnhancedNotification.t) :
  (compareNotifications "priority" a b <= 0)%Z <-> byPriority a b.
Proof.
  unfold compareNotifications, byPriority. simpl.
  destruct (Z.eqb_spec (priorityOrder (EnhancedNotification.priority a))
                       (priorityOrder (EnhancedNotification.priority b))) as [E|N].
  - pose proof (priorityOrder_inj _ _ E). split.
    + intros Hle. right. split; [done | lia].
    + intros [Hlt | [_ Hle]]; lia.
  - split.
    + intros Hle. left. lia.
    + intros [Hlt | [E _]]; [lia |]. by rewrite E in N.
Qed.

Lemma byPriority_trans (a b c : EnhancedNotification.t) :
  byPriority a b -> byPriority b c -> byPriority a c.
Proof.
  unfold byPriority. intros [H1 | [E1 H1]] [H2 | [E2 H2]].
  - left. lia.
  - left. rewrite <- E2. lia.
  - left. rewrite E1. lia.
  - right. split; [congruence | lia].
Qed.

Lemma byPriority_total (a b : EnhancedNotification.t) :
  (compareNotifications "priority" a b <=? 0)%Z = false -> byPriority b a.
Proof.
  intros Hle. apply Z.leb_gt in Hle. apply compare_priority_spec.
  revert Hle. unfold compareNotifications. simpl.
  rewrite (Z.eqb_sym (priorityOrder (EnhancedNotification.priority b))).
  destruct (Z.eqb_spec (priorityOrder (EnhancedNotification.priority a))
                       (priorityOrder (EnhancedNotification.priority b))); lia.
Qed.

Lemma filter_empty_term (notifications : list EnhancedNotification.t) :
  List.filter (matchesSearch "") notifications = notifications.
Proof.
  induction notifications as [|n l IH]; simpl; [done |]. by rewrite IH.
Qed.

Lemma priority_sorted (notifications : list EnhancedNotification.t) (searchTerm : string) :
  StronglySorted byPriority
    (filteredAndSortedNotifications notifications searchTerm "priority").
Proof.
  unfold filteredAndSortedNotifications, arraySort.
  apply sortBy_sorted.
  - apply byPriority_trans.
  - intros x y Hle. apply compare_priority_spec. by apply Z.leb_le.
  - apply byPriority_total.
Qed.

(** C5: sorting by [priority] permutes the list it sorts, which is the
    whole input when no search term is set; in the result every high
    notification precedes every medium one and every medium one every low
    one (and so every high one every low one), and of two notifications of
    one priority the earlier in the list is not older than the later. *)
Theorem priority_sort (notifications : list EnhancedNotification.t)
    (searchTerm : string) :
  let out := filteredAndSortedNotifications notifications searchTerm "priority" in
  Permutation (List.filter (matchesSearch searchTerm) notifications) out
  /\ Permutation notifications
       (filteredAndSortedNotifications notifications "" "priority")
  /\ (forall (i j : nat) (a b : EnhancedNotification.t),
        out !! i = Some a -> out !! j = Some b ->
        (EnhancedNotification.priority a = high
           /\ EnhancedNotification.priority b = medium)
        \/ (EnhancedNotification.priority a = medium
              /\ EnhancedNotification.priority b = low)
        \/ (EnhancedNotification.priority a = high
              /\ EnhancedNotification.priority b = low) ->
        (i < j)%nat)
  /\ (forall (i j : nat) (a b : EnhancedNotification.t),
        out !! i = Some a -> out !! j = Some b -> (i < j)%nat ->
        EnhancedNotification.priority a = EnhancedNotification.priority b ->
        (EnhancedNotification.createdAt b <= EnhancedNotification.createdAt a)%Z).
Proof.
  intros out. pose proof (priority_sorted notifications searchTerm) as Hsorted.
  fold out in Hsorted. split_and!.
  - subst out. unfold filteredAndSortedNotifications, arraySort.
    symmetry. apply sortBy_perm.
  - unfold filteredAndSortedNotifications, arraySort.
    rewrite filter_empty_term. symmetry. apply sortBy_perm.
  - intros i j a b Hi Hj Hrank.
    destruct (Nat.lt_trichotomy i j) as [Hlt | [-> | Hgt]]; [done | |].
    + rewrite Hi in Hj. injection Hj as ->.
      destruct Hrank as [[E1 E2] | [[E1 E2] | [E1 E2]]]; congruence.
    + pose proof (StronglySorted_lookup_lt _ _ _ _ _ _ Hsorted Hj Hi Hgt) as Hba.
      unfold byPriority in Hba.
      destruct Hrank as [[E1 E2] | [[E1 E2] | [E1 E2]]];
        rewrite E1, E2 in Hba; simpl in Hba;
        destruct Hba as [Hlt | [E _]]; (lia || discriminate).
  - intros i j a b Hi Hj Hlt Heq.
    pose proof (StronglySorted_lookup_lt _ _ _ _ _ _ Hsorted Hi Hj Hlt) as Hab.
    destruct Hab as [Hrank | [_ Hle]]; [| done].
    rewrite Heq in Hrank. lia.
Qed.

End PageFacts.

(** ** Queries *)

Section QueryFacts.
Context `{Host}.
Import NotificationService.




Lemma getDocs_hits (q : Query) (s : Store) (n : AppNotification) :
  n ∈ getDocs q s -> s !! n.1 = Some n.2 /\ satisfies q n.2 = true.
Proof.
  unfold getDocs. intros Hin.
  assert (n ∈ map_to_list
            (filter (fun kv : string * Notification.t => satisfies q kv.2 = true) s))
    as Hhit.
  { destruct (limitOf q) as [k|]; [apply subseteq_take in Hin |];
      by rewrite sortBy_perm in Hin. }
  destruct n as [i d]. apply elem_of_map_to_list in Hhit.
  by apply map_lookup_filter_Some in Hhit.
Qed.




Lemma unread_hits (fid : string) (s : Store) :
  getDocs (unreadQuery fid) s ≡ₚ map_to_list (unreadOf fid s).
Proof.
  unfold getDocs, unreadQuery, unreadOf. cbn [isOrdered existsb orb limitOf].
  rewrite sortBy_perm.
  assert (filter (fun kv : string * Notification.t =>
            satisfies [WhereFournisseurId fid; WhereIsRead false] kv.2 = true) s
          = filter (fun kv : string * Notification.t =>
              Notification.fournisseurId kv.2 = fid
              /\ Notification.isRead kv.2 = false) s) as ->; [| done].
  apply map_filter_ext. intros i d _. simpl.
  rewrite !andb_true_iff, String.eqb_eq, Bool.eqb_true_iff. tauto.
Qed.

Lemma unread_count (fid : string) (s : Store) :
  length (getDocs (unreadQuery fid) s) = size (unreadOf fid s).
Proof.
  rewrite (Permutation_length (unread_hits fid s)). apply length_map_to_list.
Qed.

Lemma getUnreadCount_size (fid : string) (s : Store) :
  getUnreadCount fid s = size (unreadOf fid s).
Proof. apply unread_count. Qed.

Lemma partition_hits (fid : string) (s : Store) :
  filter (fun kv : string * Notification.t =>
            satisfies [WhereFournisseurId fid] kv.2 = true) s
  = partition fid s.
Proof.
  apply map_filter_ext. intros i d _. simpl.
  rewrite andb_true_iff, String.eqb_eq. tauto.
Qed.

Lemma stats_docs (fid : string) (s : Store) :
  getDocs [WhereFournisseurId fid] s ≡ₚ map_to_list (partition fid s).
Proof.
  unfold getDocs. cbn [isOrdered existsb limitOf orb].
  by rewrite sortBy_perm, partition_hits.
Qed.

Lemma filter_length_perm {A} (p : A -> bool) (l l' : list A) :
  l ≡ₚ l' -> length (List.filter p l) = length (List.filter p l').
Proof.
  induction 1 as [|x l l' _ IH|x y l|l l' l'' _ IH1 _ IH2]; simpl.
  - done.
  - destruct (p x); simpl; congruence.
  - destruct (p x), (p y); reflexivity.
  - congruence.
Qed.

Lemma count_values (p : Notification.t -> bool) (m : Store) :
  length (List.filter p (map snd (map_to_list m)))
  = size (filter (fun kv : string * Notification.t => p kv.2 = true) m).
Proof.
  induction m as [|i x m Hfresh IH] using map_ind.
  - by rewrite map_to_list_empty, map_filter_empty, map_size_empty.
  - rewrite (filter_length_perm p _ (x :: map snd (map_to_list m))).
    2:{ change (x :: map snd (map_to_list m)) with (map snd ((i, x) :: map_to_list m)).
        apply Permutation_map. by apply map_to_list_insert. }
    simpl. destruct (p x) eqn:Hp.
    + rewrite map_filter_insert_True by done.
      rewrite map_size_insert_None.
      * simpl. by rewrite IH.
      * apply map_lookup_filter_None. by left.
    + rewrite map_filter_insert_not' by (simpl; intros; congruence).
      exact IH.
Qed.

Lemma unreadOf_partition (fid : string) (s : Store) :
  unreadOf fid s
  = filter (fun kv : string * Notification.t => negb (Notification.isRead kv.2) = true)
           (partition fid s).
Proof.
  unfold unreadOf, partition. rewrite map_filter_filter.
  apply map_filter_ext. intros i d _. simpl.
  rewrite negb_true_iff. tauto.
Qed.





End QueryFacts.

(** ** Batches *)

Section BatchFacts.
Context `{Host}.
Import NotificationService.

Lemma commit_marks (ws : list Write) (s : Store) :
  Forall (marksExisting s) ws ->
  exists s',
    commit ws s = Some s'
    /\ forall k d', s' !! k = Some d' ->
         exists d, s !! k = Some d
           /\ Notification.fournisseurId d' = Notification.fournisseurId d
           /\ (k ∈ map writeId ws -> Notification.isRead d' = true)
           /\ (k ∉ map writeId ws -> d' = d).
Proof.
  revert s. induction ws as [|w ws IH]; intros s Hall.
  - exists s. split; [done |]. intros k d' Hk. exists d'.
    split_and!; [done | done | | done].
    intros Hin. by apply elem_of_nil in Hin.
  - apply Forall_cons in Hall as [(id & p & -> & Hp & [d0 Hd0]) Hrest].
    simpl. rewrite Hd0.
    set (s1 := <[id := applyPatch p d0]> s).
    destruct (IH s1) as (s' & Hcommit & Hs').
    { eapply Forall_impl; [exact Hrest |].
      intros w (id' & p' & -> & Hp' & Hsome). exists id', p'.
      split_and!; [done | done |]. subst s1.
      destruct (decide (id = id')) as [->|Hne].
      - rewrite lookup_insert_eq. eauto.
      - by rewrite lookup_insert_ne. }
    exists s'. split; [done |]. intros k d' Hk.
    destruct (Hs' k d' Hk) as (d1 & Hd1 & Hfid & Hin & Hout).
    subst s1. destruct (decide (id = k)) as [->|Hne].
    + rewrite lookup_insert_eq in Hd1. injection Hd1 as <-.
      exists d0. split_and!; [done | done | |].
      * intros _. destruct (decide (k ∈ map writeId ws)) as [Hk'|Hk'];
          [by apply Hin |]. by rewrite (Hout Hk').
      * intros Hnot. exfalso. apply Hnot. simpl. apply elem_of_cons. by left.
    + rewrite lookup_insert_ne in Hd1 by done.
      exists d1. split_and!; [done | done | |].
      * simpl. rewrite elem_of_cons. intros [E | Hk']; [congruence | by apply Hin].
      * simpl. rewrite not_elem_of_cons. intros [_ Hk']. by apply Hout.
Qed.



Lemma markAll_writes (fid : string) (clock : Clock) (s : Store) :
  Forall (marksExisting s)
    (imap (fun i (docSnapshot : AppNotification) =>
             WUpdate docSnapshot.1 {| patch_isRead := true; patch_readAt := clock i |})
          (getDocs (unreadQuery fid) s)).
Proof.
  apply Forall_forall. intros w Hw.
  apply elem_of_lookup_imap in Hw as (i & n & -> & Hn).
  exists n.1, {| patch_isRead := true; patch_readAt := clock i |}.
  split_and!; [done | done |].
  apply list_elem_of_lookup_2, getDocs_hits in Hn as [Hn _]. eauto.
Qed.

Lemma markAll_ids (fid : string) (clock : Clock) (s : Store) (k : string) (d : Notification.t) :
  s !! k = Some d -> Notification.fournisseurId d = fid -> Notification.isRead d = false ->
  k ∈ map writeId
        (imap (fun i (docSnapshot : AppNotification) =>
                 WUpdate docSnapshot.1 {| patch_isRead := true; patch_readAt := clock i |})
              (getDocs (unreadQuery fid) s)).
Proof.
  intros Hk Hfid Hread.
  assert ((k, d) ∈ getDocs (unreadQuery fid) s) as Hin.
  { rewrite unread_hits. apply elem_of_map_to_list.
    unfold unreadOf. by apply map_lookup_filter_Some. }
  apply list_elem_of_lookup_1 in Hin as [i Hi].
  apply list_elem_of_In, in_map_iff.
  exists (WUpdate k {| patch_isRead := true; patch_readAt := clock i |}).
  split; [done |]. apply list_elem_of_In, elem_of_lookup_imap.
  exists i, (k, d). by split.
Qed.

Lemma markAllAsRead_result (fid : string) (clock : Clock) (s : Store) :
  exists s', markAllAsRead fid clock s = Some s' /\ unreadOf fid s' = ∅.
Proof.
  unfold markAllAsRead.
  destruct (commit_marks _ s (markAll_writes fid clock s)) as (s' & Hcommit & Hs').
  exists s'. split; [done |].
  apply map_empty_filter. intros k d' Hk [Hfid Hread]. simpl in *.
  destruct (Hs' k d' Hk) as (d & Hd & Hsame & Hin & Hout).
  destruct (decide (k ∈ map writeId
        (imap (fun i (docSnapshot : AppNotification) =>
                 WUpdate docSnapshot.1 {| patch_isRead := true; patch_readAt := clock i |})
              (getDocs (unreadQuery fid) s)))) as [Hk'|Hk'].
  - rewrite (Hin Hk') in Hread. discriminate.
  - pose proof (Hout Hk') as ->. apply Hk'.
    by apply (markAll_ids fid clock s k d).
Qed.

(** C6: [markAllAsRead] succeeds; applied again, at whatever times, it
    changes nothing; and after it the supplier has no unread notification. *)
Theorem markAllAsRead_idempotent (fournisseurId : string) (clock1 clock2 : Clock)
    (s : Store) :
  exists s1,
    markAllAsRead fournisseurId clock1 s = Some s1
    /\ markAllAsRead fournisseurId clock2 s1 = Some s1
    /\ getUnreadCount fournisseurId s1 = 0%nat.
Proof.
  destruct (markAllAsRead_result fournisseurId clock1 s) as (s1 & Hfirst & Hnone).
  exists s1. split_and!; [done | |].
  - unfold markAllAsRead.
    pose proof (unread_hits fournisseurId s1) as Hperm.
    rewrite Hnone, map_to_list_empty in Hperm.
    apply Permutation_nil_r in Hperm. by rewrite Hperm.
  - by rewrite getUnreadCount_size, Hnone, map_size_empty.
Qed.

End BatchFacts.

Section CallFacts.
Context `{Host}.
Import NotificationService.









End CallFacts.

Section EmailFacts.
Context `{Host}.
Import SupplierEmailService.

Lemma literalGet_own {A} (entries : list (string * A)) (k : string) (a : A) :
  literalGet entries k = Own a -> ownProp entries k = Some a.
Proof.
  unfold literalGet. destruct (ownProp entries k) as [a'|]; [congruence |].
  unfold objectPrototype.
  repeat match goal with |- context [if ?b then _ else _] => destruct b end;
    discriminate.
Qed.

(** C7: [sendOrderNotification] completes normally with a boolean, whatever
    the order, the provider and the state of the instance; the answer is
    [false], with no call to the provider, when the instance is not
    initialized and when the table has no entry for [order.status]; and a
    send that the provider fails gives [false]. *)
Theorem sendOrderNotification_safe (emailjs : Provider) (this : t) (order : Order.t)
    (tr : list Event) :
  exists (b : bool) (added : list Event),
    sendOrderNotification emailjs this order tr = (Eff.Normal b, (tr ++ added)%list)
    /\ (isInitialized this = false ->
        b = false /\ Forall (fun e => isProviderCall e = false) added)
    /\ (ownProp ORDER_STATUS_TEMPLATES (Order.status order) = None ->
        b = false /\ Forall (fun e => isProviderCall e = false) added)
    /\ (forall (sid tid : string) (params : TemplateParams) (error : string),
          In (EmailSend sid tid params) added ->
          send emailjs sid tid params = Eff.Throw error ->
          b = false).
Proof.
  unfold sendOrderNotification.
  destruct (isInitialized this) eqn:Hinit; cbn [negb].
  2:{ exists false, [ConsoleError "Supplier EmailJS not initialized"].
      split; [reflexivity |]. split_and!.
      - intros _. split; [done |]. by repeat constructor.
      - intros _. split; [done |]. by repeat constructor.
      - done. }
  unfold Eff.tryCatch.
  destruct (literalGet ORDER_STATUS_TEMPLATES (Order.status order)) as [template|name| |]
    eqn:Hget.
  - apply literalGet_own in Hget.
    unfold sendWithTemplate, Eff.bind, Eff.call, Eff.emit, Eff.ret.
    match goal with
    | |- context [send emailjs ?sid ?tid ?params] =>
        destruct (send emailjs sid tid params) as [[]|error] eqn:Hsend
    end.
    + eexists true, [_; _]. rewrite <- !app_assoc. split; [reflexivity |].
      split_and!.
      * discriminate.
      * intros Hnone. congruence.
      * intros sid tid params error [E | [E | []]] Hthrow; [| discriminate].
        injection E as <- <- <-. congruence.
    + eexists false, [_; _]. rewrite <- !app_assoc. split; [reflexivity |].
      split_and!; [discriminate | intros Hnone; congruence | done].
  - unfold Eff.throw, Eff.bind, Eff.emit, Eff.ret.
    eexists false, [_]. split; [reflexivity |].
    split_and!; [discriminate | | ].
    + intros _. split; [done |]. by repeat constructor.
    + intros sid tid params error [E | []]. discriminate.
  - unfold Eff.throw, Eff.bind, Eff.emit, Eff.ret.
    eexists false, [_]. split; [reflexivity |].
    split_and!; [discriminate | | ].
    + intros _. split; [done |]. by repeat constructor.
    + intros sid tid params error [E | []]. discriminate.
  - unfold Eff.bind, Eff.emit, Eff.ret.
    eexists false, [_]. split; [reflexivity |].
    split_and!; [discriminate | | ].
    + intros _. split; [done |]. by repeat constructor.
    + intros sid tid params error [E | []]. discriminate.
Qed.

End EmailFacts.

Section StatsFacts.
Context `{Host}.
Import EnhancedNotifications.

Lemma clickedCount_le (notifications : list EnhancedNotification.t) :
  (clickedCount notifications <= length notifications)%nat.
Proof.
  unfold clickedCount. induction notifications as [|n l IH]; simpl; [lia |].
  destruct (EnhancedNotification.clicked n); simpl; lia.
Qed.

(** C8, for the rate modelled from the spec: it is [clicked / total * 100]
    for a non-empty set, 0 for the empty set, and lies between 0 and 100. *)
Theorem clickThroughRate_bounds (notifications : list EnhancedNotification.t) :
  (length notifications <> 0%nat ->
     (clickThroughRate notifications
      == inject_Z (Z.of_nat (clickedCount notifications))
         / inject_Z (Z.of_nat (length notifications)) * 100)%Q)
  /\ (length notifications = 0%nat -> clickThroughRate notifications = 0%Q)
  /\ (0 <= clickThroughRate notifications)%Q
  /\ (clickThroughRate notifications <= 100)%Q.
Proof.
  pose proof (clickedCount_le notifications) as Hle.
  unfold clickThroughRate.
  destruct (Nat.eqb_spec (length notifications) 0) as [E|N].
  - split_and!; [congruence | done | done | done].
  - split_and!; [reflexivity | congruence | |].
    + apply Qmult_le_0_compat; [| done].
      apply Qle_shift_div_l.
      * change 0%Q with (inject_Z 0). rewrite <- Zlt_Qlt. lia.
      * rewrite Qmult_0_l. change 0%Q with (inject_Z 0). rewrite <- Zle_Qle. lia.
    + apply Qle_trans with (1 * 100)%Q; [| by vm_compute].
      apply Qmult_le_compat_r; [| done].
      apply Qle_shift_div_r.
      * change 0%Q with (inject_Z 0). rewrite <- Zlt_Qlt. lia.
      * rewrite Qmult_1_l. rewrite <- Zle_Qle. lia.
Qed.

End StatsFacts.

(** ** The theorems at sample inputs *)

Section AtSamples.
#[local] Existing Instance PlainHost.host.
Import NotificationService.

(** The payment helper on the test order: [shipped] is not a status of the
    switch, and nothing is created. *)
Example payment_shipped_creates_none :
  createSupplierPaymentNotification Sample.testOrder "pending" "shipped" 1000%Z ∅ = ∅.
Proof. reflexivity. Qed.

(** The status helper on the test order, for a status of the table and for
    the status [foo]. *)
Example status_out_for_delivery :
  map (fun kv : AppNotification => Notification.message kv.2)
    (map_to_list
       (createSupplierOrderStatusNotification Sample.testOrder "preparing"
          "out_for_delivery" 1000%Z ∅))
  = ["La commande de Test Customer est maintenant en livraison."].
Proof. reflexivity. Qed.

Example status_foo :
  map (fun kv : AppNotification => Notification.message kv.2)
    (map_to_list
       (createSupplierOrderStatusNotification Sample.testOrder "preparing"
          "foo" 1000%Z ∅))
  = ["La commande de Test Customer est maintenant foo."].
Proof. reflexivity. Qed.



(** Sorting the three sample notifications by priority: the high ones come
    first, the newer of the two before the older. *)
Lemma priority_sort_witness :
  map EnhancedNotification.id
    (EnhancedNotifications.filteredAndSortedNotifications Sample.mixed "" "priority")
  = ["c"; "b"; "a"]
  /\ (1 < 2)%nat
  /\ (100 <= 300)%Z.
Proof.
  split; [reflexivity |].
  destruct (priority_sort Sample.mixed "") as (_ & _ & Hrank & Htie).
  split.
  - apply (Hrank 1%nat 2%nat (Sample.enhanced "b" high true 100%Z)
                 (Sample.enhanced "a" medium false 300%Z));
      [reflexivity | reflexivity | left; split; reflexivity].
  - apply (Htie 0%nat 1%nat (Sample.enhanced "c" high false 300%Z)
                (Sample.enhanced "b" high true 100%Z));
      [reflexivity | reflexivity | lia | reflexivity].
Defined.

(** Sending for the test order: nothing is sent and the answer is [false]
    while the instance is not initialized and for a status without
    template; a provider that fails gives [false]. *)
Lemma sendOrderNotification_safe_witness :
  (exists added,
      SupplierEmailService.sendOrderNotification Sample.okProvider
        (Sample.service false) Sample.testOrder []
      = (Eff.Normal false, added)
      /\ Forall (fun e => SupplierEmailService.isProviderCall e = false) added)
  /\ (exists added,
        SupplierEmailService.sendOrderNotification Sample.failingProvider
          (Sample.service true) Sample.testOrder []
        = (Eff.Normal false, added)).
Proof.
  split.
  - destruct (sendOrderNotification_safe Sample.okProvider (Sample.service false)
                Sample.testOrder [])
      as (b & added & Hrun & Huninit & _).
    destruct (Huninit eq_refl) as [-> Hquiet].
    exists added. split; [exact Hrun | exact Hquiet].
  - destruct (sendOrderNotification_safe Sample.failingProvider (Sample.service true)
                Sample.testOrder [])
      as (b & added & Hrun & _ & _ & Hthrow).
    assert (added = (SupplierEmailService.sendOrderNotification Sample.failingProvider
                       (Sample.service true) Sample.testOrder []).2) as Hadded
      by (by rewrite Hrun).
    assert (exists p, In (SupplierEmailService.EmailSend "service" "template" p) added)
      as [p Hp].
    { rewrite Hadded. eexists. left. reflexivity. }
    exists added.
    rewrite <- (Hthrow "service" "template" p "network error" Hp eq_refl).
    exact Hrun.
Defined.

(** The rate of the three sample notifications, one of them clicked, and
    of no notification at all. *)
Lemma clickThroughRate_bounds_witness :
  (EnhancedNotifications.clickThroughRate Sample.mixed == 100 # 3)%Q
  /\ EnhancedNotifications.clickThroughRate [] = 0%Q.
Proof.
  split.
  - destruct (clickThroughRate_bounds Sample.mixed) as (Hrate & _).
    rewrite Hrate; [reflexivity | discriminate].
  - destruct (clickThroughRate_bounds []) as (_ & Hzero & _).
    apply Hzero. reflexivity.
Defined.


End AtSamples.

(** * Further properties *)

(** ** Unread counts under writes *)

Section CountFacts.
Context `{Host}.
Import NotificationService.

Lemma isUnreadOf_spec (fid : string) (d : Notification.t) :
  isUnreadOf fid d = true
  <-> Notification.fournisseurId d = fid /\ Notification.isRead d = false.
Proof.
  unfold isUnreadOf. rewrite andb_true_iff, String.eqb_eq, negb_true_iff. tauto.
Qed.

Lemma unreadOf_lookup (fid : string) (s : Store) (k : string) :
  unreadAt fid (unreadOf fid s !! k) = unreadAt fid (s !! k)
  /\ (is_Some (unreadOf fid s !! k) <-> unreadAt fid (s !! k) = 1%nat).
Proof.
  unfold unreadOf. destruct (s !! k) as [d|] eqn:Hk.
  - destruct (isUnreadOf fid d) eqn:Hd.
    + assert (filter (fun kv : string * Notification.t =>
                Notification.fournisseurId kv.2 = fid
                /\ Notification.isRead kv.2 = false) s !! k = Some d) as ->.
      { apply map_lookup_filter_Some. split; [done |]. by apply isUnreadOf_spec. }
      simpl. rewrite Hd. split; [done |]. split; eauto.
    + assert (filter (fun kv : string * Notification.t =>
                Notification.fournisseurId kv.2 = fid
                /\ Notification.isRead kv.2 = false) s !! k = None) as ->.
      { apply map_lookup_filter_None. right. intros d' Hd' Hp.
        simplify_eq. simpl in Hp.
        apply isUnreadOf_spec in Hp. congruence. }
      simpl. rewrite Hd. split; [done |]. split; [by intros [? ?] | done].
  - assert (filter (fun kv : string * Notification.t =>
              Notification.fournisseurId kv.2 = fid
              /\ Notification.isRead kv.2 = false) s !! k = None) as ->.
    { apply map_lookup_filter_None. by left. }
    simpl. split; [done |]. split; [by intros [? ?] | done].
Qed.

Lemma count_delete (fid k : string) (s : Store) :
  size (unreadOf fid (delete k s)) = (size (unreadOf fid s) - unreadAt fid (s !! k))%nat.
Proof.
  destruct (unreadOf_lookup fid s k) as [_ Hsome].
  unfold unreadOf in *. rewrite map_filter_delete, map_size_delete.
  match goal with |- context [match ?o with Some _ => _ | None => _ end] =>
    destruct o as [d|] eqn:Hk end.
  - assert (unreadAt fid (s !! k) = 1%nat) as -> by (apply Hsome; eauto).
    simpl. lia.
  - destruct (unreadAt fid (s !! k)) as [|[|n]] eqn:Hu; simpl; try lia.
    + destruct Hsome as [_ Hs]. destruct (Hs eq_refl) as [? ?]. discriminate.
    + exfalso. unfold unreadAt in Hu.
      destruct (s !! k) as [d|]; [destruct (isUnreadOf fid d) |]; discriminate.
Qed.

Lemma count_insert (fid k : string) (d : Notification.t) (s : Store) :
  size (unreadOf fid (<[k := d]> s))
  = (size (unreadOf fid s) - unreadAt fid (s !! k)
     + (if isUnreadOf fid d then 1 else 0))%nat.
Proof.
  rewrite <- count_delete, <- (insert_delete_eq s).
  unfold unreadOf. destruct (isUnreadOf fid d) eqn:Hd.
  - rewrite map_filter_insert_True by (by apply isUnreadOf_spec).
    rewrite map_size_insert_None; [lia |].
    apply map_lookup_filter_None. left. apply lookup_delete_eq.
  - rewrite map_filter_insert_not'.
    + lia.
    + simpl. intros Hp. apply isUnreadOf_spec in Hp. congruence.
    + intros y Hy. by rewrite lookup_delete_eq in Hy.
Qed.

Lemma unreadAt_le (fid : string) (s : Store) (k : string) :
  (unreadAt fid (s !! k) <= size (unreadOf fid s))%nat.
Proof.
  destruct (unreadOf_lookup fid s k) as [_ Hsome].
  destruct (unreadAt fid (s !! k)) as [|[|n]] eqn:Hu; [lia | |].
  - destruct Hsome as [_ Hsome]. destruct (Hsome eq_refl) as [d Hd].
    destruct (decide (size (unreadOf fid s) = 0%nat)) as [E|N]; [| lia].
    apply map_size_empty_iff in E. rewrite E, lookup_empty in Hd. discriminate.
  - exfalso. unfold unreadAt in Hu.
    destruct (s !! k) as [d|]; [destruct (isUnreadOf fid d) |]; discriminate.
Qed.

(** X1: [markAsRead] on a document of the collection sets [isRead] and
    stamps [readAt] with the time of the call, whatever they were, keeps
    every other field, and lowers the unread count of a supplier by one
    exactly when the document was an unread one of that supplier; on an id
    that is not in the collection the write is rejected. *)
Theorem markAsRead_effect (notificationId : string) (now : Time) (s : Store)
    (fournisseurId : string) :
  match s !! notificationId with
  | None => markAsRead notificationId now s = None
  | Some d =>
      exists d',
        markAsRead notificationId now s = Some (<[notificationId := d']> s)
        /\ Notification.isRead d' = true
        /\ Notification.readAt d' = Some now
        /\ content d' = content d
        /\ getUnreadCount fournisseurId (<[notificationId := d']> s)
           = (getUnreadCount fournisseurId s - unreadAt fournisseurId (Some d))%nat
  end.
Proof.
  unfold markAsRead, applyWrite.
  destruct (s !! notificationId) as [d|] eqn:Hd; [| done].
  eexists. split; [reflexivity |]. split_and!; [done | done | done |].
  rewrite !getUnreadCount_size, count_insert, Hd.
  match goal with |- context [isUnreadOf fournisseurId (applyPatch ?p d)] =>
    assert (isUnreadOf fournisseurId (applyPatch p d) = false) as ->
      by (unfold isUnreadOf; simpl; apply andb_false_r)
  end.
  lia.
Qed.

(** X3: [deleteNotification] always succeeds; the unread count of a
    supplier drops by one when the deleted document was an unread one of
    that supplier and stays as it is otherwise (a read document, a document
    of another supplier, an id that is not there). *)
Theorem deleteNotification_count (notificationId : string) (s : Store)
    (fournisseurId : string) :
  deleteNotification notificationId s = Some (delete notificationId s)
  /\ getUnreadCount fournisseurId (delete notificationId s)
     = (getUnreadCount fournisseurId s
        - unreadAt fournisseurId (s !! notificationId))%nat
  /\ (unreadAt fournisseurId (s !! notificationId)
      <= getUnreadCount fournisseurId s)%nat.
Proof.
  split; [reflexivity |].
  rewrite !getUnreadCount_size. split; [apply count_delete | apply unreadAt_le].
Qed.

End CountFacts.

(** ** Batches, creation and cleanup *)

Section WriteFacts.
Context `{Host}.
Import NotificationService.

Lemma getDocs_unlimited (q : Query) (s : Store) :
  limitOf q = None ->
  getDocs q s
  ≡ₚ map_to_list (filter (fun kv : string * Notification.t => satisfies q kv.2 = true) s).
Proof. intros Hq. unfold getDocs. rewrite Hq. apply sortBy_perm. Qed.

Lemma search_all (fid : string) (s : Store) :
  searchNotifications fid "" None s ≡ₚ map_to_list (partition fid s).
Proof.
  unfold searchNotifications. cbn [truthy].
  rewrite getDocs_unlimited by done.
  assert (filter (fun kv : string * Notification.t =>
            satisfies [WhereFournisseurId fid; OrderByCreatedAtDesc] kv.2 = true) s
          = partition fid s) as ->; [| done].
  apply map_filter_ext. intros i d _. simpl.
  rewrite andb_true_r, String.eqb_eq. tauto.
Qed.


Lemma content_applyPatch (p : Patch) (d : Notification.t) :
  content (applyPatch p d) = content d.
Proof. reflexivity. Qed.

Lemma commit_updates (ws : list Write) (s : Store) :
  Forall (fun w => exists id p, w = WUpdate id p /\ is_Some (s !! id)) ws ->
  exists s',
    commit ws s = Some s'
    /\ content <$> s' = content <$> s
    /\ forall k,
         (k ∉ map writeId ws -> s' !! k = s !! k)
         /\ (k ∈ map writeId ws ->
             exists p d',
               WUpdate k p ∈ ws /\ s' !! k = Some d'
               /\ Notification.isRead d' = patch_isRead p
               /\ Notification.readAt d' = Some (patch_readAt p)).
Proof.
  revert s. induction ws as [|w ws IH]; intros s Hall.
  - exists s. split_and!; [done | done |]. intros k. split; [done |].
    intros Hin. by apply elem_of_nil in Hin.
  - apply Forall_cons in Hall as [(id & p & -> & [d0 Hd0]) Hrest].
    simpl. rewrite Hd0.
    set (s1 := <[id := applyPatch p d0]> s).
    destruct (IH s1) as (s' & Hcommit & Hcontent & Hs').
    { eapply Forall_impl; [exact Hrest |].
      intros w (id' & p' & -> & Hsome). exists id', p'. split; [done |].
      subst s1. destruct (decide (id = id')) as [->|Hne].
      - rewrite lookup_insert_eq. eauto.
      - by rewrite lookup_insert_ne. }
    exists s'. split_and!; [done | |].
    + rewrite Hcontent. subst s1. rewrite fmap_insert, content_applyPatch.
      apply insert_id. by rewrite lookup_fmap, Hd0.
    + intros k. destruct (Hs' k) as [Hout Hin]. split.
      * rewrite not_elem_of_cons. intros [Hne Hk]. rewrite (Hout Hk).
        subst s1. by rewrite lookup_insert_ne.
      * intros Hk. destruct (decide (k ∈ map writeId ws)) as [Hk'|Hk'].
        -- destruct (Hin Hk') as (p' & d' & Hw & Hd' & Hr & Ht).
           exists p', d'. split_and!; [| done | done | done].
           apply elem_of_cons. by right.
        -- apply elem_of_cons in Hk as [->|Hk]; [| done].
           exists p, (applyPatch p d0). split_and!; [| | done | done].
           ++ apply elem_of_cons. by left.
           ++ rewrite (Hout Hk'). subst s1. apply lookup_insert_eq.
Qed.

Lemma commit_updates_exist (ws : list Write) (s s' : Store) :
  Forall (fun w => exists id p, w = WUpdate id p) ws ->
  commit ws s = Some s' ->
  Forall (fun w => is_Some (s !! writeId w)) ws.
Proof.
  revert s. induction ws as [|w ws IH]; intros s Hall Hcommit; [constructor |].
  apply Forall_cons in Hall as [(id & p & ->) Hrest]. simpl in Hcommit.
  destruct (s !! id) as [d0|] eqn:Hd0; [| discriminate].
  constructor; [simpl; rewrite Hd0; eauto |].
  eapply Forall_impl; [exact (IH _ Hrest Hcommit) |].
  intros w [d Hd]. simpl in Hd.
  destruct (decide (id = writeId w)) as [E|Hne].
  - rewrite <- E, Hd0. eauto.
  - rewrite lookup_insert_ne in Hd by done. eauto.
Qed.

Lemma markMultiple_ids (ids : list string) (clock : Clock) :
  map writeId
    (imap (fun i id => WUpdate id {| patch_isRead := true; patch_readAt := clock i |}) ids)
  = ids.
Proof.
  revert clock. induction ids as [|id ids IH]; intros clock; simpl; [done |].
  f_equal. apply (IH (fun i => clock (S i))).
Qed.

Lemma markMultiple_shape (ids : list string) (clock : Clock) :
  Forall (fun w => exists id p, w = WUpdate id p /\ patch_isRead p = true)
    (imap (fun i id => WUpdate id {| patch_isRead := true; patch_readAt := clock i |}) ids).
Proof.
  apply Forall_forall. intros w Hw.
  apply elem_of_lookup_imap in Hw as (i & id & -> & _). eauto.
Qed.

(** X2: [markMultipleAsRead] is all or nothing.  It is rejected exactly
    when one of the ids is not in the collection; otherwise every listed
    document is read afterwards, no field other than [isRead] and [readAt]
    changes anywhere, and the documents that are not listed are as before. *)
Theorem markMultipleAsRead_atomic (notificationIds : list string) (clock : Clock)
    (s : Store) :
  match markMultipleAsRead notificationIds clock s with
  | None => Exists (fun id => s !! id = None) notificationIds
  | Some s' =>
      Forall (fun id => is_Some (s !! id)) notificationIds
      /\ content <$> s' = content <$> s
      /\ Forall (fun id => exists d', s' !! id = Some d'
                                      /\ Notification.isRead d' = true)
                notificationIds
      /\ filter (fun kv : string * Notification.t => kv.1 ∉ notificationIds) s'
         = filter (fun kv : string * Notification.t => kv.1 ∉ notificationIds) s
  end.
Proof.
  unfold markMultipleAsRead.
  set (ws := imap _ notificationIds).
  pose proof (markMultiple_ids notificationIds clock) as Hids. fold ws in Hids.
  pose proof (markMultiple_shape notificationIds clock) as Hshape. fold ws in Hshape.
  destruct (decide (Forall (fun id => is_Some (s !! id)) notificationIds)) as [Hall|Hsome].
  - destruct (commit_updates ws s) as (s' & -> & Hcontent & Hs').
    { rewrite Forall_forall in Hshape. rewrite Forall_forall in Hall.
      apply Forall_forall. intros w Hw.
      destruct (Hshape w Hw) as (id & p & -> & _). exists id, p. split; [done |].
      apply Hall. rewrite <- Hids. apply list_elem_of_In, in_map_iff.
      exists (WUpdate id p). split; [done | by apply list_elem_of_In]. }
    split_and!; [done | done | |].
    + apply Forall_forall. intros id Hid. rewrite <- Hids in Hid.
      destruct (proj2 (Hs' id) Hid) as (p & d' & Hw & Hd' & Hr & _).
      exists d'. split; [done |]. rewrite Hr.
      rewrite Forall_forall in Hshape.
      destruct (Hshape _ Hw) as (id' & p' & E & Hp). by simplify_eq.
    + apply map_filter_strong_ext. intros k d. simpl.
      split; intros [Hk Hd]; (split; [done |]).
      * rewrite <- Hd. symmetry. apply Hs'. by rewrite Hids.
      * rewrite <- Hd. apply Hs'. by rewrite Hids.
  - destruct (commit ws s) as [s'|] eqn:Hcommit.
    + exfalso. apply Hsome.
      assert (Forall (fun w => exists id p, w = WUpdate id p) ws) as Hupd.
      { eapply Forall_impl; [exact Hshape |]. intros w (id & p & -> & _). eauto. }
      pose proof (commit_updates_exist ws s s' Hupd Hcommit) as Hex.
      rewrite <- Hids. rewrite Forall_forall in Hex. apply Forall_forall.
      intros id Hid.
      apply list_elem_of_In, in_map_iff in Hid as (w & <- & Hw).
      apply Hex. by apply list_elem_of_In.
    + apply not_Forall_Exists in Hsome; [| solve_decision].
      eapply Exists_impl; [exact Hsome |]. intros id Hid. simpl in Hid.
      by apply eq_None_not_Some.
Qed.

(** X12: [markAllAsRead] succeeds, adds and removes nothing and changes no
    field other than [isRead] and [readAt]; the documents that were not
    unread ones of the supplier are untouched, and each unread one of the
    supplier is read and has a [readAt] afterwards. *)
Theorem markAllAsRead_frame (fournisseurId : string) (clock : Clock) (s : Store) :
  exists s',
    markAllAsRead fournisseurId clock s = Some s'
    /\ content <$> s' = content <$> s
    /\ filter (fun kv : string * Notification.t =>
                 isUnreadOf fournisseurId kv.2 = false) s ⊆ s'
    /\ map_Forall
         (fun k _ => exists d', s' !! k = Some d'
                                /\ Notification.isRead d' = true
                                /\ is_Some (Notification.readAt d'))
         (unreadOf fournisseurId s).
Proof.
  unfold markAllAsRead.
  set (ws := imap _ (getDocs (unreadQuery fournisseurId) s)).
  assert (forall k, k ∈ map writeId ws <-> is_Some (unreadOf fournisseurId s !! k)) as Hids.
  { intros k. subst ws. split.
    - intros Hk. apply list_elem_of_In, in_map_iff in Hk as (w & <- & Hw).
      apply list_elem_of_In, elem_of_lookup_imap in Hw as (i & n & -> & Hn).
      apply list_elem_of_lookup_2 in Hn. rewrite unread_hits in Hn.
      destruct n as [k d]. apply elem_of_map_to_list in Hn. simpl. eauto.
    - intros [d Hd]. unfold unreadOf in Hd.
      apply map_lookup_filter_Some in Hd as [Hd [Hf Hr]].
      by apply (markAll_ids fournisseurId clock s k d). }
  destruct (commit_updates ws s) as (s' & -> & Hcontent & Hs').
  { pose proof (markAll_writes fournisseurId clock s) as Hw. fold ws in Hw.
    eapply Forall_impl; [exact Hw |]. intros w (id & p & -> & _ & Hsome). eauto. }
  exists s'. split_and!; [done | done | |].
  - apply map_subseteq_spec. intros k d Hd.
    apply map_lookup_filter_Some in Hd as [Hd Hno]. simpl in Hno.
    rewrite <- Hd. apply Hs'. rewrite Hids. intros [d' Hd'].
    unfold unreadOf in Hd'. apply map_lookup_filter_Some in Hd' as [Hd' Hp].
    simplify_eq. simpl in Hp. apply isUnreadOf_spec in Hp. congruence.
  - intros k d Hd.
    destruct (proj2 (Hs' k)) as (p & d' & Hw & Hd' & Hr & Ht); [apply Hids; eauto |].
    exists d'. split_and!; [done | | rewrite Ht; eauto].
    rewrite Hr. subst ws.
    apply elem_of_lookup_imap in Hw as (i & n & E & _). by simplify_eq.
Qed.

End WriteFacts.

Section CleanupFacts.
Context `{Host}.
Import NotificationService.

Lemma commit_deletes_lookup (ids : list string) (s : Store) :
  exists s',
    commit (map WDelete ids) s = Some s'
    /\ forall k, s' !! k = if decide (k ∈ ids) then None else s !! k.
Proof.
  revert s. induction ids as [|id ids IH]; intros s; cbn [map commit applyWrite].
  - exists s. split; [done |]. intros k.
    destruct (decide (k ∈ @nil string)) as [Hk|Hk]; [| done].
    by apply elem_of_nil in Hk.
  - destruct (IH (delete id s)) as (s' & Hcommit & Hs').
    exists s'. split; [done |]. intros k. rewrite Hs'.
    destruct (decide (k ∈ ids)) as [Hk|Hk];
      destruct (decide (k ∈ id :: ids)) as [Hk'|Hk']; try done.
    + exfalso. apply Hk'. apply elem_of_cons. by right.
    + apply elem_of_cons in Hk' as [->|Hk']; [apply lookup_delete_eq | done].
    + apply lookup_delete_ne. intros ->. apply Hk'. apply elem_of_cons. by left.
Qed.

Lemma filter_sizes (P : string * Notification.t -> Prop)
    `{!forall x, Decision (P x)} (s : Store) :
  (size (filter P s) + size (filter (fun kv => ~ P kv) s))%nat = size s.
Proof.
  rewrite <- map_size_disj_union by apply map_disjoint_filter_complement.
  by rewrite map_filter_union_complement.
Qed.

(** X5: [cleanupOldNotifications] deletes exactly the documents of the
    supplier created before the cutoff, keeps all the others, and answers
    the number of documents it deleted. *)
Theorem cleanupOldNotifications_effect (fournisseurId : string) (daysOld : option Z)
    (now : Time) (s : Store) :
  let cutoff := daysBefore now (default 30%Z daysOld) in
  let r := cleanupOldNotifications fournisseurId daysOld now s in
  r.2 = Some (filter (fun kv => ~ expired fournisseurId cutoff kv) s)
  /\ r.1 = size (filter (expired fournisseurId cutoff) s)
  /\ (r.1 + size (filter (fun kv => ~ expired fournisseurId cutoff kv) s))%nat
     = size s.
Proof.
  intros cutoff r. subst r. unfold cleanupOldNotifications. cbv zeta. cbn [fst snd].
  fold cutoff.
  set (q := [WhereFournisseurId fournisseurId; WhereCreatedAtBefore cutoff]).
  assert (filter (fun kv : string * Notification.t => satisfies q kv.2 = true) s
          = filter (expired fournisseurId cutoff) s) as Hhits.
  { apply map_filter_ext. intros i d _. unfold expired. simpl.
    rewrite andb_true_r, andb_true_iff, String.eqb_eq, Z.ltb_lt. tauto. }
  assert (getDocs q s ≡ₚ map_to_list (filter (expired fournisseurId cutoff) s)) as Hperm.
  { rewrite getDocs_unlimited by done. by rewrite Hhits. }
  assert (length (getDocs q s) = size (filter (expired fournisseurId cutoff) s)) as Hlen.
  { rewrite (Permutation_length Hperm). apply length_map_to_list. }
  split_and!.
  - rewrite <- (map_map (fst : AppNotification -> string) WDelete).
    match goal with
    | |- context [commit (map WDelete ?l) s] =>
        set (ids := l);
        destruct (commit_deletes_lookup ids s) as (s' & -> & Hs')
    end.
    f_equal. apply map_eq. intros k. rewrite Hs'.
    destruct (decide (k ∈ ids)) as [Hk|Hk]; subst ids.
    + symmetry. apply map_lookup_filter_None.
      apply list_elem_of_In, in_map_iff in Hk as ([k' d] & <- & Hin).
      apply list_elem_of_In in Hin. rewrite Hperm in Hin.
      apply elem_of_map_to_list, map_lookup_filter_Some in Hin as [Hd Hexp].
      right. intros d' Hd' Hnot. simpl in *. by simplify_eq.
    + destruct (s !! k) as [d|] eqn:Hd.
      * symmetry. apply map_lookup_filter_Some. split; [done |].
        intros Hexp. apply Hk. apply list_elem_of_In, in_map_iff.
        exists (k, d). split; [done |]. apply list_elem_of_In. rewrite Hperm.
        apply elem_of_map_to_list. by apply map_lookup_filter_Some.
      * symmetry. apply map_lookup_filter_None. by left.
  - exact Hlen.
  - rewrite Hlen. apply filter_sizes.
Qed.



End CleanupFacts.

Section ReadFacts.
Context `{Host}.
Import NotificationService.

Lemma filter_length_le {A} (p : A -> bool) (l : list A) :
  (length (List.filter p l) <= length l)%nat.
Proof.
  induction l as [|x l IH]; simpl; [lia |]. destruct (p x); simpl; lia.
Qed.

Lemma byType_count (l : list Notification.t) (m : gmap string nat) (t : NotificationType) :
  default 0%nat (fold_left byTypeStep l m !! typeName t)
  = (default 0%nat (m !! typeName t) + length (List.filter (ofType t) l))%nat.
Proof.
  revert m. induction l as [|n l IH]; intros m; simpl; [lia |].
  rewrite IH. unfold byTypeStep. cbv zeta.
  assert (ofType t n = String.eqb (typeName (Notification.type n)) (typeName t)) as ->
    by reflexivity.
  destruct (String.eqb_spec (typeName (Notification.type n)) (typeName t)) as [E|N].
  - rewrite E, lookup_insert_eq. simpl. lia.
  - rewrite lookup_insert_ne by done. lia.
Qed.

Lemma types_partition (l : list Notification.t) :
  (length (List.filter (ofType TOrder) l) + length (List.filter (ofType TPayment) l)
   + length (List.filter (ofType TSystem) l) + length (List.filter (ofType TProduct) l))%nat
  = length l.
Proof.
  induction l as [|n l IH]; simpl; [done |].
  unfold ofType in *. destruct (Notification.type n); simpl in *; lia.
Qed.

(** X7: in [getNotificationStats] the unread number is the one
    [getUnreadCount] answers, neither it nor the recent number exceeds the
    total, and the counts by type add up to the total. *)
Theorem getNotificationStats_consistent (fournisseurId : string) (now : Time)
    (s : Store) :
  let stats := getNotificationStats fournisseurId now s in
  stats_unread stats = getUnreadCount fournisseurId s
  /\ (stats_unread stats <= stats_total stats)%nat
  /\ (stats_recent stats <= stats_total stats)%nat
  /\ (default 0 (stats_byType stats !! "order")
      + default 0 (stats_byType stats !! "payment")
      + default 0 (stats_byType stats !! "system")
      + default 0 (stats_byType stats !! "product"))%nat
     = stats_total stats.
Proof.
  intros stats. subst stats. unfold getNotificationStats.
  cbn [stats_unread stats_total stats_recent stats_byType].
  split_and!.
  - rewrite (filter_length_perm _ _ _ (Permutation_map snd (stats_docs fournisseurId s))).
    by rewrite count_values, <- unreadOf_partition, getUnreadCount_size.
  - apply filter_length_le.
  - apply filter_length_le.
  - set (l := map snd (getDocs [WhereFournisseurId fournisseurId] s)).
    pose proof (byType_count l ∅ TOrder) as H1.
    pose proof (byType_count l ∅ TPayment) as H2.
    pose proof (byType_count l ∅ TSystem) as H3.
    pose proof (byType_count l ∅ TProduct) as H4.
    rewrite lookup_empty in H1, H2, H3, H4. simpl in H1, H2, H3, H4.
    unfold byTypeStep in H1, H2, H3, H4.
    rewrite H1, H2, H3, H4. apply types_partition.
Qed.


(** X9: [getNotificationPriority] of what the helpers create: a payment
    notification is [high] for the status [failed] and [medium] for the
    other statuses of the switch (nothing is created outside it); the new
    order and the order status notifications are [high]. *)
Theorem helper_priorities (subOrder : Order.t) (oldStatus newStatus : string)
    (now : Time) (s : Store) :
  match paymentTexts subOrder newStatus with
  | None => createSupplierPaymentNotification subOrder oldStatus newStatus now s = s
  | Some _ =>
      exists d,
        createSupplierPaymentNotification subOrder oldStatus newStatus now s
          !! autoId s = Some d
        /\ getNotificationPriority d
           = if String.eqb newStatus "failed" then high else medium
  end
  /\ (exists d,
        createSupplierOrderNotification subOrder now s !! autoId s = Some d
        /\ getNotificationPriority d = high)
  /\ (exists d,
        createSupplierOrderStatusNotification subOrder oldStatus newStatus now s
          !! autoId s = Some d
        /\ getNotificationPriority d = high).
Proof.
  split_and!.
  - unfold createSupplierPaymentNotification.
    destruct (paymentTexts subOrder newStatus) as [[[t m] e]|]; [| done].
    rewrite createNotification_store. eexists. split; [apply lookup_insert_eq |].
    reflexivity.
  - unfold createSupplierOrderNotification. rewrite createNotification_store.
    eexists. split; [apply lookup_insert_eq | reflexivity].
  - unfold createSupplierOrderStatusNotification. rewrite createNotification_store.
    eexists. split; [apply lookup_insert_eq | reflexivity].
Qed.






Lemma list_filter_sublist {A} (p : A -> bool) (l : list A) :
  List.filter p l `sublist_of` l.
Proof.
  induction l as [|x l IH]; simpl; [constructor |].
  destruct (p x); by constructor.
Qed.

(** X11: the results of [searchNotifications] for a term are a
    subsequence of the results for the empty term; the types ["all"], [""]
    and no type filter alike; the unfiltered search answers all documents of
    the supplier, without a limit; and every result has the requested type. *)
Theorem search_refines (fournisseurId searchTerm : string) (type : option string)
    (s : Store) :
  searchNotifications fournisseurId searchTerm type s
    `sublist_of` searchNotifications fournisseurId "" type s
  /\ searchNotifications fournisseurId searchTerm (Some "all") s
     = searchNotifications fournisseurId searchTerm None s
  /\ searchNotifications fournisseurId searchTerm (Some "") s
     = searchNotifications fournisseurId searchTerm None s
  /\ searchNotifications fournisseurId "" None s
     ≡ₚ map_to_list (partition fournisseurId s)
  /\ Forall (typeFilter type) (searchNotifications fournisseurId searchTerm type s).
Proof.
  split_and!; [| reflexivity | reflexivity | apply search_all |].
  - unfold searchNotifications. cbn [truthy].
    destruct (truthy searchTerm); [apply list_filter_sublist | reflexivity].
  - apply Forall_forall. intros n Hn.
    assert (n ∈ searchNotifications fournisseurId "" type s) as Hin.
    { eapply sublist_subseteq; [| exact Hn].
      unfold searchNotifications. cbn [truthy].
      destruct (truthy searchTerm); [apply list_filter_sublist | reflexivity]. }
    unfold searchNotifications in Hin. cbn [truthy] in Hin.
    unfold typeFilter. destruct type as [t|]; [| done].
    destruct (truthy t && negb (String.eqb t "all")); [| done].
    apply getDocs_hits in Hin as [_ Hsat]. simpl in Hsat.
    rewrite andb_true_r in Hsat. apply andb_true_iff in Hsat as [_ Hsat].
    by apply String.eqb_eq.
Qed.

End ReadFacts.

Section TimeFacts.
Import TimeFormat.

(** X13: [formatNotificationTime] is [formatTimeAgo] up to seven days and
    the host's date afterwards; a notification less than a minute old, or
    dated in the future, is shown as [Just now]; the hour count shown lies
    between 1 and 23 and the day count of the service between 1 and 6. *)
Theorem relative_time (toLocaleDateString : Time -> string) (createdAt now : Time) :
  let m := diffInMinutes createdAt now in
  formatNotificationTime toLocaleDateString createdAt now
  = (if (m <? 10080)%Z then formatTimeAgo createdAt now
     else toLocaleDateString createdAt)
  /\ ((m < 1)%Z <-> (now - createdAt < 60000)%Z)
  /\ formatTimeAgo createdAt now
     = (if (now - createdAt <? 60000)%Z then "Just now"
        else if (now - createdAt <? 3600000)%Z then pretty m ++ "m ago"
        else if (now - createdAt <? 86400000)%Z then pretty (m / 60)%Z ++ "h ago"
        else pretty (m / 1440)%Z ++ "d ago")
  /\ ((3600000 <= now - createdAt < 86400000)%Z -> (1 <= m / 60 <= 23)%Z)
  /\ ((86400000 <= now - createdAt < 604800000)%Z -> (1 <= m / 1440 <= 6)%Z).
Proof.
  intros m. subst m. unfold formatNotificationTime, formatTimeAgo, diffInMinutes.
  set (d := (now - createdAt)%Z).
  change (1000 * 60)%Z with 60000%Z.
  split_and!.
  - repeat match goal with |- context [(?a <? ?b)%Z] => destruct (Z.ltb_spec a b) end;
      try reflexivity; lia.
  - clearbody d. Z.to_euclidean_division_equations. lia.
  - clearbody d.
    repeat match goal with |- context [(?a <? ?b)%Z] => destruct (Z.ltb_spec a b) end;
      try reflexivity; Z.to_euclidean_division_equations; lia.
  - clearbody d. Z.to_euclidean_division_equations. lia.
  - clearbody d. Z.to_euclidean_division_equations. lia.
Qed.

End TimeFacts.

Section MoreEmailFacts.
Context `{Host}.
Import SupplierEmailService.


(** X15: [initialize] keeps the configuration, calls the provider once
    unless the instance is initialized already, leaves the instance
    initialized exactly when it was or the provider accepted the key, and
    does nothing at all on an initialized instance. *)
Theorem initialize_once (emailjs : Provider) (this : t) (tr : list Event) :
  exists (this' : t) (added : list Event),
    initialize emailjs this tr = (Eff.Normal this', (tr ++ added)%list)
    /\ config this' = config this
    /\ isInitialized this'
       = (isInitialized this
          || match init emailjs (publicKey (config this)) with
             | Eff.Normal _ => true
             | Eff.Throw _ => false
             end)
    /\ length (List.filter isProviderCall added)
       = (if isInitialized this then 0 else 1)%nat
    /\ (isInitialized this' = true ->
        forall tr', initialize emailjs this' tr' = (Eff.Normal this', tr')).
Proof.
  unfold initialize. destruct (isInitialized this) eqn:Hinit.
  - exists this, []. rewrite app_nil_r. split; [reflexivity |].
    split_and!; [done | rewrite Hinit; done | done |].
    intros _ tr'. by rewrite Hinit.
  - unfold Eff.tryCatch, Eff.bind, Eff.call, Eff.emit, Eff.ret.
    destruct (init emailjs (publicKey (config this))) as [[]|error] eqn:Hcall.
    + eexists _, [_; _]. rewrite <- !app_assoc. split; [reflexivity |].
      split_and!; [done | done | done |]. intros _ tr'. reflexivity.
    + eexists this, [_; _]. rewrite <- !app_assoc. split; [reflexivity |].
      split_and!; [done | by rewrite Hinit | done |]. intros E. congruence.
Qed.

End MoreEmailFacts.

Section ConfigFacts.
Import SupplierEmailService EmailConfiguration.

Lemma envOr_placeholder (value : option string) (placeholder : string) :
  truthy placeholder = true ->
  String.eqb (envOr value placeholder) placeholder = negb (usable value placeholder).
Proof.
  intros Hp. unfold envOr, usable, orElse. destruct value as [v|]; simpl.
  - destruct (truthy v); simpl; [by rewrite negb_involutive |].
    apply String.eqb_refl.
  - apply String.eqb_refl.
Qed.

(** X16: [getConfigStatus] and [isConfigured] agree; a configuration read
    from the environment is configured exactly when the three variables are
    set to non-empty texts other than the placeholders, and the missing
    fields are the names of the others, in the order of the source. *)
Theorem configuration_status (env : Env) (config : Config) :
  status_isConfigured (getConfigStatus config) = isConfigured config
  /\ isConfigured (configOf env)
     = (usable (VITE_EMAILJS_SERVICE_ID env) "YOUR_EMAILJS_SERVICE_ID"
        && usable (VITE_EMAILJS_SUPPLIER_ORDER_TEMPLATE_ID env)
                  "YOUR_SUPPLIER_ORDER_TEMPLATE_ID"
        && usable (VITE_EMAILJS_PUBLIC_KEY env) "YOUR_EMAILJS_PUBLIC_KEY")
  /\ missingFields (getConfigStatus (configOf env))
     = ((if usable (VITE_EMAILJS_SERVICE_ID env) "YOUR_EMAILJS_SERVICE_ID"
         then [] else ["VITE_EMAILJS_SERVICE_ID"])
        ++ (if usable (VITE_EMAILJS_SUPPLIER_ORDER_TEMPLATE_ID env)
                      "YOUR_SUPPLIER_ORDER_TEMPLATE_ID"
            then [] else ["VITE_EMAILJS_SUPPLIER_ORDER_TEMPLATE_ID"])
        ++ (if usable (VITE_EMAILJS_PUBLIC_KEY env) "YOUR_EMAILJS_PUBLIC_KEY"
            then [] else ["VITE_EMAILJS_PUBLIC_KEY"]))%list.
Proof.
  split_and!.
  - unfold getConfigStatus, isConfigured. cbv zeta. cbn [status_isConfigured].
    destruct (String.eqb (serviceId config) "YOUR_EMAILJS_SERVICE_ID"),
      (String.eqb (orderNotificationTemplateId config) "YOUR_SUPPLIER_ORDER_TEMPLATE_ID"),
      (String.eqb (publicKey config) "YOUR_EMAILJS_PUBLIC_KEY"); reflexivity.
  - unfold isConfigured, configOf. cbn [serviceId orderNotificationTemplateId publicKey].
    rewrite !envOr_placeholder by reflexivity. by rewrite !negb_involutive.
  - unfold getConfigStatus, configOf. cbv zeta.
    cbn [serviceId orderNotificationTemplateId publicKey missingFields].
    rewrite !envOr_placeholder by reflexivity.
    destruct (usable (VITE_EMAILJS_SERVICE_ID env) "YOUR_EMAILJS_SERVICE_ID"),
      (usable (VITE_EMAILJS_SUPPLIER_ORDER_TEMPLATE_ID env) "YOUR_SUPPLIER_ORDER_TEMPLATE_ID"),
      (usable (VITE_EMAILJS_PUBLIC_KEY env) "YOUR_EMAILJS_PUBLIC_KEY"); reflexivity.
Qed.

End ConfigFacts.

Section MorePageFacts.
Context `{Host}.
Import EnhancedNotifications.

Lemma compare_default (sortBy : string) (a b : EnhancedNotification.t) :
  sortBy ∉ ["oldest"; "priority"; "unread"; "type"] ->
  compareNotifications sortBy a b
  = (EnhancedNotification.createdAt b - EnhancedNotification.createdAt a)%Z.
Proof.
  rewrite !not_elem_of_cons. intros (H1 & H2 & H3 & H4 & _).
  unfold compareNotifications.
  repeat match goal with
  | |- context [String.eqb sortBy ?k] =>
      destruct (String.eqb_spec sortBy k); [congruence |]
  end.
  reflexivity.
Qed.

(** X17: whatever the sort key, [filteredAndSortedNotifications] answers
    a permutation of the notifications that match the search; with no
    search term that is a permutation of the whole list. *)
Theorem sort_keeps_matches (notifications : list EnhancedNotification.t)
    (searchTerm sortBy : string) :
  filteredAndSortedNotifications notifications searchTerm sortBy
    ≡ₚ List.filter (matchesSearch searchTerm) notifications
  /\ Forall (fun n => matchesSearch searchTerm n = true)
       (filteredAndSortedNotifications notifications searchTerm sortBy)
  /\ filteredAndSortedNotifications notifications "" sortBy ≡ₚ notifications.
Proof.
  unfold filteredAndSortedNotifications, arraySort. split_and!.
  - apply sortBy_perm.
  - apply Forall_forall. intros n Hn. rewrite sortBy_perm in Hn.
    apply list_elem_of_In, filter_In in Hn. tauto.
  - rewrite sortBy_perm. by rewrite filter_empty_term.
Qed.

(** X18: a sort key other than [oldest], [priority], [unread] and [type]
    sorts newest first; [oldest] sorts oldest first; [unread] puts every
    unread notification before every read one, the newer first among
    notifications of one read state. *)
Theorem sort_orders (notifications : list EnhancedNotification.t)
    (searchTerm sortBy : string) :
  (sortBy ∉ ["oldest"; "priority"; "unread"; "type"] ->
   StronglySorted newestFirst
     (filteredAndSortedNotifications notifications searchTerm sortBy))
  /\ StronglySorted oldestFirst
       (filteredAndSortedNotifications notifications searchTerm "oldest")
  /\ StronglySorted unreadFirst
       (filteredAndSortedNotifications notifications searchTerm "unread").
Proof.
  unfold filteredAndSortedNotifications, arraySort. split_and!.
  - intros Hkey. apply sortBy_sorted.
    + unfold newestFirst. intros x y z. lia.
    + intros x y Hle. rewrite compare_default in Hle by done.
      unfold newestFirst. lia.
    + intros x y Hle. rewrite compare_default in Hle by done.
      unfold newestFirst. lia.
  - apply sortBy_sorted.
    + unfold oldestFirst. intros x y z. lia.
    + intros x y Hle. unfold compareNotifications in Hle. simpl in Hle.
      unfold oldestFirst. lia.
    + intros x y Hle. unfold compareNotifications in Hle. simpl in Hle.
      unfold oldestFirst. lia.
  - apply sortBy_sorted.
    + unfold unreadFirst. intros x y z [[E1 E2]|[E1 L1]] [[E3 E4]|[E3 L2]].
      * congruence.
      * left. split; congruence.
      * left. split; congruence.
      * right. split; [congruence | lia].
    + intros x y Hle. unfold compareNotifications in Hle. simpl in Hle.
      unfold unreadFirst.
      destruct (EnhancedNotification.isRead x), (EnhancedNotification.isRead y);
        simpl in Hle;
        first [ lia | by left | right; split; [done | lia] ].
    + intros x y Hle. unfold compareNotifications in Hle. simpl in Hle.
      unfold unreadFirst.
      destruct (EnhancedNotification.isRead x), (EnhancedNotification.isRead y);
        simpl in Hle;
        first [ lia | by left | right; split; [done | lia] ].
Qed.

End MorePageFacts.

Section HookFacts.
Context `{Host}.
Import UseNotifications.



(** X19: after [markAllAsRead] of the hook for a supplier id that is not
    empty, the local unread count is the one of the store, every local
    notification is read, the list holds the same ids and the error is as
    before. *)
Theorem hook_markAllAsRead (fournisseurId : string) (clock : Clock) (s : Store)
    (st : State) :
  truthy fournisseurId = true ->
  let r := markAllAsRead (Some fournisseurId) clock s st in
  unreadCount r.2 = Z.of_nat (NotificationService.getUnreadCount fournisseurId r.1)
  /\ Forall (fun n : AppNotification => Notification.isRead n.2 = true)
       (notifications r.2)
  /\ map fst (notifications r.2) = map fst (notifications st)
  /\ error r.2 = error st.
Proof.
  intros Hf r. subst r. unfold markAllAsRead, present. rewrite Hf.
  destruct (markAllAsRead_result fournisseurId clock s) as (s' & -> & Hnone).
  cbn [fst snd notifications unreadCount error]. split_and!.
  - by rewrite getUnreadCount_size, Hnone, map_size_empty.
  - apply Forall_forall. intros n Hn.
    apply list_elem_of_In, in_map_iff in Hn as (n0 & <- & _). reflexivity.
  - rewrite map_map. by apply map_ext.
  - done.
Qed.





(** X22: when the store rejects the write because an id is not in the
    collection, [markAsRead] and [markMultipleAsRead] of the hook leave the
    collection, the local list and the local count as they were and set the
    error text. *)
Theorem hook_rejected_write (notificationId : string) (notificationIds : list string)
    (now : Time) (clock : Clock) (s : Store) (st : State) :
  s !! notificationId = None ->
  notificationId ∈ notificationIds ->
  let r1 := markAsRead notificationId now s st in
  let r2 := markMultipleAsRead notificationIds clock s st in
  r1 = (s, failed st "Failed to mark notification as read")
  /\ r2 = (s, failed st "Failed to mark notifications as read")
  /\ notifications r1.2 = notifications st /\ unreadCount r1.2 = unreadCount st
  /\ notifications r2.2 = notifications st /\ unreadCount r2.2 = unreadCount st.
Proof.
  intros Hnone Hin r1 r2. subst r1 r2.
  assert (markAsRead notificationId now s st
          = (s, failed st "Failed to mark notification as read")) as ->.
  { unfold markAsRead, NotificationService.markAsRead, applyWrite. by rewrite Hnone. }
  assert (markMultipleAsRead notificationIds clock s st
          = (s, failed st "Failed to mark notifications as read")) as ->.
  { unfold markMultipleAsRead, NotificationService.markMultipleAsRead.
    set (ws := imap _ notificationIds).
    destruct (commit ws s) as [s'|] eqn:Hcommit; [| done].
    exfalso.
    assert (Forall (fun w => exists id p, w = WUpdate id p) ws) as Hupd.
    { pose proof (markMultiple_shape notificationIds clock) as Hshape.
      eapply Forall_impl; [exact Hshape |]. intros w (id & p & -> & _). eauto. }
    pose proof (commit_updates_exist ws s s' Hupd Hcommit) as Hex.
    rewrite Forall_forall in Hex.
    rewrite <- (markMultiple_ids notificationIds clock) in Hin.
    apply list_elem_of_In, in_map_iff in Hin as (w & Hw & Hin).
    apply list_elem_of_In, Hex in Hin. rewrite Hw, Hnone in Hin.
    by destruct Hin. }
  done.
Qed.

End HookFacts.

(** ** The further theorems at sample inputs *)

Section MoreAtSamples.
#[local] Existing Instance PlainHost.host.


(** Two hours after its creation a notification is shown as [2h ago]. *)
Lemma relative_time_witness :
  TimeFormat.formatTimeAgo 0%Z 7200000%Z = "2h ago"
  /\ TimeFormat.formatNotificationTime (fun _ => "1/1/1970") 0%Z 7200000%Z = "2h ago"
  /\ (1 <= 2 <= 23)%Z.
Proof.
  destruct (relative_time (fun _ => "1/1/1970") 0%Z 7200000%Z)
    as (Hsame & _ & _ & Hhours & _).
  split; [reflexivity |]. split; [rewrite Hsame; reflexivity |].
  apply Hhours. lia.
Defined.

(** Initializing with a provider that accepts the key: the instance is
    initialized and a second call does nothing. *)
Lemma initialize_once_witness :
  exists this',
    SupplierEmailService.isInitialized this' = true
    /\ SupplierEmailService.initialize Sample.okProvider this' []
       = (Eff.Normal this', []).
Proof.
  destruct (initialize_once Sample.okProvider (Sample.service false) [])
    as (this' & added & _ & _ & Hinit & _ & Hagain).
  exists this'. split; [exact Hinit | apply Hagain, Hinit].
Defined.


(** Any key the comparator does not know sorts newest first. *)
Lemma sort_orders_witness :
  StronglySorted newestFirst
    (EnhancedNotifications.filteredAndSortedNotifications Sample.mixed "" "newest")
  /\ map EnhancedNotification.id
       (EnhancedNotifications.filteredAndSortedNotifications Sample.mixed "" "newest")
     = ["a"; "c"; "b"].
Proof.
  split; [| reflexivity].
  destruct (sort_orders Sample.mixed "" "newest") as (Hnewest & _).
  apply Hnewest. rewrite !not_elem_of_cons.
  split_and!; [discriminate | discriminate | discriminate | discriminate |].
  apply not_elem_of_nil.
Defined.


(** The hook on the sample collection: marking all as read leaves the
    count of the store. *)
Lemma hook_markAllAsRead_witness :
  UseNotifications.unreadCount
    (UseNotifications.markAllAsRead (Some "supplier-1") (fun _ => 50%Z)
       Sample.storeA MoreSamples.hookState).2
  = 0%Z
  /\ NotificationService.getUnreadCount "supplier-1"
       (UseNotifications.markAllAsRead (Some "supplier-1") (fun _ => 50%Z)
          Sample.storeA MoreSamples.hookState).1
     = 0%nat.
Proof.
  destruct (hook_markAllAsRead "supplier-1" (fun _ => 50%Z) Sample.storeA
              MoreSamples.hookState eq_refl)
    as (Hcount & _).
  split; [reflexivity |].
  apply Nat2Z.inj. rewrite <- Hcount. reflexivity.
Defined.



(** A write for an id that is not in the collection is rejected, and the
    hook keeps its list and count. *)
Lemma hook_rejected_write_witness :
  UseNotifications.markAsRead "n9" 50%Z Sample.storeA MoreSamples.hookState
  = (Sample.storeA,
     UseNotifications.failed MoreSamples.hookState
       "Failed to mark notification as read")
  /\ UseNotifications.unreadCount
       (UseNotifications.markMultipleAsRead ["n1"; "n9"] (fun _ => 50%Z)
          Sample.storeA MoreSamples.hookState).2
     = 1%Z.
Proof.
  destruct (hook_rejected_write "n9" ["n1"; "n9"] 50%Z (fun _ => 50%Z) Sample.storeA
              MoreSamples.hookState)
    as (H1 & _ & _ & _ & _ & H2).
  - reflexivity.
  - apply list_elem_of_In. right. left. reflexivity.
  - split; [exact H1 | rewrite H2; reflexivity].
Defined.

End MoreAtSamples.
